(** * Selector derivation ([error_hashes.py]) and the swap-quote script
    ([router/inch.py]) of managed_basis, embedded and verified.

    Python values are modelled as follows: a [str] is the list of its
    Unicode code points, [bytes] is a list of [byte], a [dict] with [str]
    keys is a [gmap pystr _], an exception is a value of [exn] carried by
    the [result] type, [print] appends a line to an explicit standard
    output, the network is a function from requests to responses, and the
    file system and the standard output of [router/inch.py] are functions
    that say whether an operation ends normally or raises. *)

From Stdlib Require Import NArith ZArith List Lia.
From Stdlib Require Import Init.Byte Strings.Byte.
From stdpp Require Import gmap strings list fin_maps.

(** ** Keccak-256, the primitive behind [eth_utils.keccak]

    [eth_utils] is a third-party package; its [keccak] is the original
    Keccak-256 sponge: permutation Keccak-f[1600] on 25 lanes of 64 bits,
    rate 136 bytes, multi-rate padding with domain byte 0x01 and final
    byte 0x80, 32 bytes of output. *)
Module Keccak.
Local Open Scope N_scope.

Definition lane_mask : N := 0xFFFFFFFFFFFFFFFF.

(** Rotation of a 64-bit lane to the left, the overflow cut off. *)
Definition rol64 (x n : N) : N :=
  N.land (N.lor (N.shiftl x n) (N.shiftr x (64 - n))) lane_mask.

Definition not64 (x : N) : N := N.lxor x lane_mask.

(** The state is the list of the 25 lanes, lane (x, y) at index x + 5y. *)
Definition lane (A : list N) (x y : nat) : N := nth (x + 5 * y)%nat A 0.

Definition round_constants : list N :=
  [ 0x0000000000000001; 0x0000000000008082; 0x800000000000808A;
    0x8000000080008000; 0x000000000000808B; 0x0000000080000001;
    0x8000000080008081; 0x8000000000008009; 0x000000000000008A;
    0x0000000000000088; 0x0000000080008009; 0x000000008000000A;
    0x000000008000808B; 0x800000000000008B; 0x8000000000008089;
    0x8000000000008003; 0x8000000000008002; 0x8000000000000080;
    0x000000000000800A; 0x800000008000000A; 0x8000000080008081;
    0x8000000000008080; 0x0000000080000001; 0x8000000080008008 ].

(** Rotation offsets of the rho step, at index x + 5y. *)
Definition rotation_offsets : list N :=
  [  0;  1; 62; 28; 27;
    36; 44;  6; 55; 20;
     3; 10; 43; 25; 39;
    41; 45; 15; 21;  8;
    18;  2; 61; 56; 14 ].

Definition indices : list nat := seq 0 25.

Definition theta_C (A : list N) (x : nat) : N :=
  N.lxor (lane A x 0) (N.lxor (lane A x 1) (N.lxor (lane A x 2)
    (N.lxor (lane A x 3) (lane A x 4)))).

Definition theta_D (A : list N) (x : nat) : N :=
  N.lxor (theta_C A ((x + 4) mod 5)%nat) (rol64 (theta_C A ((x + 1) mod 5)%nat) 1).

Definition theta (A : list N) : list N :=
  let D := map (theta_D A) (seq 0 5) in
  map (fun i => N.lxor (nth i A 0) (nth (i mod 5)%nat D 0)) indices.

(** rho and pi together: the lane that lands at (X, Y) comes from
    (x, y) = (X + 3Y mod 5, X), rotated by the offset of (x, y). *)
Definition rho_pi (A : list N) : list N :=
  map (fun i =>
         let X := (i mod 5)%nat in
         let Y := (i / 5)%nat in
         let x := ((X + 3 * Y) mod 5)%nat in
         let y := X in
         rol64 (lane A x y) (nth (x + 5 * y)%nat rotation_offsets 0))
      indices.

Definition chi (B : list N) : list N :=
  map (fun i =>
         let X := (i mod 5)%nat in
         let Y := (i / 5)%nat in
         N.lxor (lane B X Y)
                (N.land (not64 (lane B ((X + 1) mod 5)%nat Y))
                        (lane B ((X + 2) mod 5)%nat Y)))
      indices.

Definition iota (rc : N) (A : list N) : list N :=
  match A with
  | [] => []
  | a :: rest => N.lxor a rc :: rest
  end.

Definition round (A : list N) (rc : N) : list N :=
  iota rc (chi (rho_pi (theta A))).

Definition keccak_f (A : list N) : list N :=
  fold_left round round_constants A.

Definition rate : nat := 136.

(** XOR of one byte into the state at byte position [pos] of the rate;
    the bytes of a lane are little-endian. *)
Definition xor_byte (A : list N) (pos : nat) (b : N) : list N :=
  alter (N.lxor (N.shiftl b (8 * N.of_nat (pos mod 8)))) (pos / 8)%nat A.

(** Absorbing, one byte at a time; the permutation runs each time the
    rate is full. *)
Fixpoint absorb (A : list N) (pos : nat) (msg : list byte) : list N * nat :=
  match msg with
  | [] => (A, pos)
  | b :: rest =>
      let A' := xor_byte A pos (Byte.to_N b) in
      if (S pos =? rate)%nat then absorb (keccak_f A') 0 rest
      else absorb A' (S pos) rest
  end.

Definition byte_of_N (n : N) : byte :=
  default x00 (Byte.of_N (n mod 256)).

Definition lane_bytes (l : N) : list byte :=
  map (fun k => byte_of_N (N.shiftr l (8 * N.of_nat k))) (seq 0 8).

(** The first 32 bytes of the state: lanes 0 to 3. *)
Definition squeeze (A : list N) : list byte :=
  lane_bytes (nth 0 A 0) ++ lane_bytes (nth 1 A 0) ++
  lane_bytes (nth 2 A 0) ++ lane_bytes (nth 3 A 0).

(** The sponge with 256 bits of output; [suffix] is the domain byte that
    starts the padding. *)
Definition sponge_256 (suffix : N) (msg : list byte) : list byte :=
  let '(A, pos) := absorb (replicate 25 0) 0 msg in
  let A := xor_byte A pos suffix in
  let A := xor_byte A (rate - 1) 0x80 in
  squeeze (keccak_f A).

Definition keccak_256 : list byte -> list byte := sponge_256 0x01.

(** SHA3-256 differs from Keccak-256 in the domain byte only; it is here
    for the known answers that exercise messages longer than the rate. *)
Definition sha3_256 : list byte -> list byte := sponge_256 0x06.

(** The tables above, recomputed: the round constants from the degree-8
    LFSR of the Keccak reference, the rotation offsets from the walk
    (x, y) -> (y, 2x + 3y) with offset (t + 1)(t + 2) / 2 at step t. *)
Fixpoint lfsr_constant (j : nat) (R rc : N) : N * N :=
  match j with
  | O => (R, rc)
  | S j' =>
      let k := (7 - j)%nat in
      let R' := N.lxor (N.shiftl R 1) ((N.shiftr R 7) * 0x71) mod 256 in
      let rc' := if N.testbit R' 1
                 then N.lxor rc (N.shiftl 1 (2 ^ N.of_nat k - 1)) else rc in
      lfsr_constant j' R' rc'
  end.

Fixpoint lfsr_constants (n : nat) (R : N) : list N :=
  match n with
  | O => []
  | S n' => let '(R', rc) := lfsr_constant 7 R 0 in rc :: lfsr_constants n' R'
  end.

Fixpoint walk_offsets (n : nat) (t : N) (x y : nat) (tbl : list N) : list N :=
  match n with
  | O => tbl
  | S n' =>
      walk_offsets n' (t + 1) y ((2 * x + 3 * y) mod 5)%nat
                   (<[(x + 5 * y)%nat := ((t + 1) * (t + 2) / 2) mod 64]> tbl)
  end.

End Keccak.

(** ** Python values shared by the two scripts *)
Module Py.

(** A [str]: the sequence of its Unicode code points. *)
Definition pystr : Type := list N.

(** The [str] of an ASCII literal. *)
Definition str (s : string) : pystr :=
  map Ascii.N_of_ascii (String.list_ascii_of_string s).

Inductive exn : Type :=
  | UnicodeEncodeError (c : N)
  | ValueError (msg : string)
  | TypeError (msg : string)
  | KeyError (key : pystr)
  | JSONDecodeError
  | RequestException (what : string)
  | OSError (what : string).

Inductive result (A : Type) : Type :=
  | Ok (a : A)
  | Raise (e : exn).
Arguments Ok {A} a.
Arguments Raise {A} e.

#[export] Instance result_ret : MRet result := fun A a => Ok a.
#[export] Instance result_bind : MBind result := fun A B f m =>
  match m with
  | Ok a => f a
  | Raise e => Raise e
  end.
#[export] Instance result_fmap : FMap result := fun A B f m =>
  match m with
  | Ok a => Ok (f a)
  | Raise e => Raise e
  end.

Local Open Scope N_scope.

(** Code points that [str.encode("utf-8")] accepts: everything but the
    surrogates D800..DFFF (and nothing above 10FFFF, which no [str] holds). *)
Definition scalar_value (c : N) : bool :=
  (c <? 0xD800) || ((0xDFFF <? c) && (c <? 0x110000)).

Definition continuation (c : N) (shift : N) : byte :=
  Keccak.byte_of_N (N.lor 0x80 (N.land (N.shiftr c shift) 0x3F)).

(** UTF-8 of one code point, as CPython's strict encoder emits it. *)
Definition utf8_char (c : N) : result (list byte) :=
  if c <? 0x80 then Ok [Keccak.byte_of_N c]
  else if c <? 0x800 then
    Ok [Keccak.byte_of_N (N.lor 0xC0 (N.shiftr c 6)); continuation c 0]
  else if c <? 0x10000 then
    if (0xD800 <=? c) && (c <=? 0xDFFF) then Raise (UnicodeEncodeError c)
    else Ok [Keccak.byte_of_N (N.lor 0xE0 (N.shiftr c 12));
             continuation c 6; continuation c 0]
  else if c <? 0x110000 then
    Ok [Keccak.byte_of_N (N.lor 0xF0 (N.shiftr c 18));
        continuation c 12; continuation c 6; continuation c 0]
  else Raise (UnicodeEncodeError c).

(** [s.encode("utf-8")]: the first character that cannot be encoded
    raises. *)
Fixpoint encode_utf8 (s : pystr) : result (list byte) :=
  match s with
  | [] => Ok []
  | c :: rest =>
      b ← utf8_char c;
      bs ← encode_utf8 rest;
      mret (b ++ bs)
  end.

(** [eth_utils.keccak(text=s)]: the text is encoded to UTF-8 and the
    bytes are hashed. *)
Definition keccak (text : pystr) : result (list byte) :=
  b ← encode_utf8 text; mret (Keccak.keccak_256 b).

(** One lowercase hexadecimal digit, as a code point. *)
Definition hex_digit (n : N) : N :=
  if n <? 10 then 48 + n else 87 + n.

(** [bytes.hex()]: two lowercase digits per byte, high nibble first, no
    separator. *)
Definition hex (bs : list byte) : pystr :=
  flat_map (fun b => let n := Byte.to_N b in
                     [hex_digit (n / 16); hex_digit (n mod 16)]) bs.

(** The value of a hexadecimal digit, and [bytes.fromhex] on digit pairs;
    used to read a printed selector back. *)
Definition digit_value (c : N) : option N :=
  if (48 <=? c) && (c <=? 57) then Some (c - 48)
  else if (97 <=? c) && (c <=? 102) then Some (c - 87)
  else if (65 <=? c) && (c <=? 70) then Some (c - 55)
  else None.

Fixpoint fromhex (s : pystr) : option (list byte) :=
  match s with
  | [] => Some []
  | hi :: lo :: rest =>
      h ← digit_value hi;
      l ← digit_value lo;
      bs ← fromhex rest;
      Some (Keccak.byte_of_N (16 * h + l) :: bs)
  | _ => None
  end.

Definition lower_hex_digit (c : N) : bool :=
  ((48 <=? c) && (c <=? 57)) || ((97 <=? c) && (c <=? 102)).

(** A text that [encode_utf8] accepts. *)
Definition encodable (s : pystr) : bool := forallb scalar_value s.

(** Reading one UTF-8 sequence from the front of a byte string: the code
    point and the bytes left. The first byte tells the length. *)
Definition decode_utf8_char (bs : list byte) : option (N * list byte) :=
  let low6 (b : byte) := N.land (Byte.to_N b) 0x3F in
  match bs with
  | [] => None
  | b0 :: r0 =>
      let n0 := Byte.to_N b0 in
      if n0 <? 0x80 then Some (n0, r0)
      else if n0 <? 0xC0 then None
      else if n0 <? 0xE0 then
        match r0 with
        | b1 :: r1 =>
            Some (N.lor (N.shiftl (N.land n0 0x1F) 6) (low6 b1), r1)
        | _ => None
        end
      else if n0 <? 0xF0 then
        match r0 with
        | b1 :: b2 :: r2 =>
            Some (N.lor (N.shiftl (N.land n0 0x0F) 12)
                        (N.lor (N.shiftl (low6 b1) 6) (low6 b2)), r2)
        | _ => None
        end
      else
        match r0 with
        | b1 :: b2 :: b3 :: r3 =>
            Some (N.lor (N.shiftl (N.land n0 0x07) 18)
                        (N.lor (N.shiftl (low6 b1) 12)
                               (N.lor (N.shiftl (low6 b2) 6) (low6 b3))), r3)
        | _ => None
        end
  end.

(** Whether the encoding of [c], when there is one, reads back as [c]
    with nothing left. *)
Definition reads_back (c : N) : bool :=
  match utf8_char c with
  | Ok b =>
      match decode_utf8_char b with
      | Some (c', []) => c' =? c
      | _ => false
      end
  | Raise _ => true
  end.

(** [reads_back] on every code point below [n]. *)
Definition reads_back_below (n : N) : bool :=
  snd (N.iter n (λ '(c, ok), (c + 1, ok && reads_back c)) (0, true)).

#[export] Instance byte_eq_decision : EqDecision byte := Byte.byte_eq_dec.
#[export] Instance exn_eq_decision : EqDecision exn.
Proof. solve_decision. Defined.
#[export] Instance result_eq_decision `{EqDecision A} : EqDecision (result A).
Proof. solve_decision. Defined.

End Py.

(** ** [error_hashes.py] *)
Module ErrorHashes.
Import Py.

Definition error_signatures : list pystr :=
  map str
    [ "ZeroShares()";
      "RequestNotExecuted()";
      "RequestAlreadyClaimed()";
      "UnauthorizedClaimer(address,address)";
      "InchSwapInvailidTokens()";
      "InchSwapAmountExceedsBalance(uint256,uint256)";
      "InchInvalidReceiver()";
      "InchInvalidAmount(uint256,uint256)";
      "IncosistentParamsLength()";
      "CallerNotFactory()";
      "CallerNotStrategy()";
      "CallerNotKeeper()";
      "InvalidMarket()";
      "InvalidInitializationAssets()";
      "CallbackNotAllowed()";
      "ZeroAddress()";
      "ArrayLengthMissmatch()";
      "AlreadyPending()";
      "InvalidFeedPrice(address,int256)";
      "PriceFeedNotUpdated(address,uint256,uint256)";
      "PriceFeedNotConfigured()";
      "EmptyPriceFeedMultiplier(address)";
      "InsufficientExecutionFee(uint256,uint256)";
      "OracleInvalidPrice()";
      "InsufficientIdleBalanceForUtilize(uint256,uint256)";
      "InsufficientProdcutBalanceForDeutilize(uint256,uint256)";
      "UnsupportedSwapType()";
      "UnAuthorizedForwarder(address)";
      "NotPositivePnl()";
      "ActiveRequestIsNotClosed(bytes32)";
      "StatusNotIdle()";
      "ZeroPendingUtilization()";
      "ZeroAmountUtilization()";
      "CallerNotPositionManager()";
      "CallerNotAgent()";
      "InvalidRequestId(bytes32,bytes32)";
      "InvalidCallback()";
      "InvalidActiveRequestType()";
      "InsufficientCollateralBalance(uint256,uint256)";
      "NoActiveRequests()";
      "CallerNotOperator()";
      "InvalidStrategyStatus(uint8)" ]%string.

(** The module-level variables the loop assigns, and standard output as
    the list of the lines printed so far. *)
Record env : Type := Env {
  signature : option pystr;
  hash_bytes : option (list byte);
  selector : option pystr;
  stdout : list pystr
}.

Definition fresh : env :=
  {| signature := None; hash_bytes := None; selector := None; stdout := [] |}.

(** [f"{signature}: 0x{selector}"] *)
Definition format_line (sig sel : pystr) : pystr :=
  sig ++ str ": 0x" ++ sel.

(** Lines 51 to 53, the body of the loop, run for one [signature] in the
    environment [e]; when [keccak] raises, the later statements do not run. *)
Definition loop_body (sig : pystr) (e : env) : env * result () :=
  let e1 := {| signature := Some sig; hash_bytes := hash_bytes e;
               selector := selector e; stdout := stdout e |} in
  match keccak sig with
  | Raise x => (e1, Raise x)
  | Ok h =>
      let sel := hex (take 4 h) in
      ({| signature := Some sig; hash_bytes := Some h;
          selector := Some sel;
          stdout := stdout e ++ [format_line sig sel] |}, Ok ())
  end.

(** Line 50: [for signature in ...]; an exception ends the loop. *)
Fixpoint for_loop (sigs : list pystr) (e : env) : env * result () :=
  match sigs with
  | [] => (e, Ok ())
  | sig :: rest =>
      match loop_body sig e with
      | (e', Ok _) => for_loop rest e'
      | (e', Raise x) => (e', Raise x)
      end
  end.

(** The engine of the specification: the four bytes [hash_bytes[:4]] of
    lines 51 and 52, before they are printed in hexadecimal. *)
Definition derive_selector (d : pystr) : result (list byte) :=
  h ← keccak d; mret (take 4 h).

(** The registry of the specification: the loop over a sequence of
    declarations, from a fresh environment. *)
Definition report_all (S : list pystr) : env * result () :=
  for_loop S fresh.

(** The script itself. *)
Definition main : env * result () := report_all error_signatures.

(** The declaration of a printed line: all but the trailing [": 0x"] and
    8 digits. *)
Definition line_declaration (line : pystr) : pystr :=
  take (length line - 12) line.

(** The selection described by the specification, on the bytes of a
    declaration: hash, then the first four bytes in the order emitted. *)
Definition reference_selector (b : list byte) : list byte :=
  match Keccak.keccak_256 b with
  | b0 :: b1 :: b2 :: b3 :: _ => [b0; b1; b2; b3]
  | _ => []
  end.

(** The line reported for a declaration whose bytes are [b]. *)
Definition entry_line (d : pystr) (b : list byte) : pystr :=
  format_line d (hex (reference_selector b)).

(** What a line of the report has to be for the declaration [d]: the
    declaration, [": 0x"], and the 8 lowercase digits of its selector. *)
Definition reports (d line : pystr) : Prop :=
  ∃ sel, derive_selector d = Ok sel ∧ length sel = 4 ∧
         line = d ++ str ": 0x" ++ hex sel ∧
         length (hex sel) = 8 ∧
         forallb lower_hex_digit (hex sel) = true ∧
         fromhex (hex sel) = Some sel.

(** The selector of a printed line: its last 8 characters, read as
    hexadecimal digits. *)
Definition line_selector (line : pystr) : option (list byte) :=
  fromhex (drop (length line - 8) line).

Definition ascii_text (s : pystr) : bool := forallb (λ c, c <? 0x80)%N s.

End ErrorHashes.
(** ** [router/inch.py] *)
Module Inch.
Import Py.

(** A value as [json.loads] returns it. A float is kept as m * 2^e: the
    script only ever tests one for zero. *)
#[warnings="-register-all"]
Inductive pyval : Type :=
  | PNone
  | PBool (b : bool)
  | PInt (z : Z)
  | PFloat (m e : Z)
  | PStr (s : pystr)
  | PList (l : list pyval)
  | PDict (d : gmap pystr pyval).

(** [bool(v)] *)
Definition truthy (v : pyval) : bool :=
  match v with
  | PNone => false
  | PBool b => b
  | PInt z => negb (z =? 0)%Z
  | PFloat m _ => negb (m =? 0)%Z
  | PStr s => negb (length s =? 0)%nat
  | PList l => negb (length l =? 0)%nat
  | PDict d => negb (size d =? 0)%nat
  end.

Fixpoint starts_with (p s : pystr) : bool :=
  match p, s with
  | [], _ => true
  | a :: p', b :: s' => (a =? b)%N && starts_with p' s'
  | _ :: _, [] => false
  end.

Fixpoint substring (p s : pystr) : bool :=
  starts_with p s ||
  match s with
  | [] => false
  | _ :: s' => substring p s'
  end.

(** [type(v).__name__] *)
Definition type_name (v : pyval) : string :=
  match v with
  | PNone => "NoneType"
  | PBool _ => "bool"
  | PInt _ => "int"
  | PFloat _ _ => "float"
  | PStr _ => "str"
  | PList _ => "list"
  | PDict _ => "dict"
  end.

Definition is_str (key : pystr) (v : pyval) : bool :=
  match v with
  | PStr s => bool_decide (s = key)
  | _ => false
  end.

(** [key in v] for a [str] key: a key of a dict, an element of a list, a
    substring of a str; the other types are not iterable. *)
Definition contains (key : pystr) (v : pyval) : result bool :=
  match v with
  | PDict d => Ok (bool_decide (is_Some (d !! key)))
  | PList l => Ok (existsb (is_str key) l)
  | PStr s => Ok (substring key s)
  | _ => Raise (TypeError ("argument of type '" +:+ type_name v +:+
                           "' is not iterable"))
  end.

(** [v[key]] for a [str] key. *)
Definition subscript (v : pyval) (key : pystr) : result pyval :=
  match v with
  | PDict d =>
      match d !! key with
      | Some x => Ok x
      | None => Raise (KeyError key)
      end
  | PStr _ => Raise (TypeError "string indices must be integers, not 'str'")
  | PList _ => Raise (TypeError "list indices must be integers or slices, not str")
  | _ => Raise (TypeError ("'" +:+ type_name v +:+ "' object is not subscriptable"))
  end.

(** What the script does to the outside, in order; an operation that
    raises leaves no event. *)
Inductive event : Type :=
  | NetGet (url : pystr) (headers params : pyval)
  | FileOpen (path : pystr)
  | FileDump (v : pyval)
  | Print (v : pyval).

(** A run: the events so far and how it ended. *)
Definition prog (A : Type) : Type := (list event * result A)%type.

#[export] Instance prog_ret : MRet prog := fun A a => ([], Ok a).
#[export] Instance prog_bind : MBind prog := fun A B f m =>
  match m with
  | (t, Ok a) => let '(t', r) := f a in (t ++ t', r)
  | (t, Raise e) => (t, Raise e)
  end.

Definition lift {A} (r : result A) : prog A := ([], r).
Definition raise {A} (e : exn) : prog A := ([], Raise e).
Definition emit (ev : event) : prog () := ([ev], Ok ()).

Definition when (c : bool) (p : prog ()) : prog () :=
  if c then p else mret ().

(** The response of [requests.get]: [response.json()] gives the parsed
    body or raises. *)
Record response : Type := Response { json : result pyval }.

(** The file system and the standard output of the machine the script
    runs on: whether [open(path, "w")], [json.dump(v, f)] into the file at
    [path] and [print(v)] end normally or raise. *)
Record host : Type := Host {
  sys_open : pystr → result ();
  sys_dump : pystr → pyval → result ();
  sys_print : pyval → result ()
}.

Definition apiUrl : pystr := str "https://api.1inch.dev/swap/v6.0/42161/swap".

(** The headers and the query parameters of the request. *)
Definition headers_of (authorization : pystr) : pyval :=
  PDict {[ str "Authorization" := PStr authorization ]}.

Definition params_of (src dst amount from slippage : pyval) : pyval :=
  PDict {[ str "src" := src; str "dst" := dst;
           str "amount" := amount; str "from" := from;
           str "slippage" := slippage;
           str "disableEstimate" := PStr (str "true") ]}.

Section script.
(** The network: what [requests.get] returns or raises for a URL,
    headers and query parameters. *)
Variable requests_get : pystr → pyval → pyval → result response.
(** The value of the Authorization header, a literal in the script. *)
Variable authorization : pystr.
(** The machine the script runs on. *)
Variable sys : host.

Definition http_get (url : pystr) (headers params : pyval) : prog response :=
  ([NetGet url headers params], requests_get url headers params).

(** Lines 20 to 31. *)
Definition validate (data : pyval) : prog () :=
  when (negb (truthy data)) (raise (ValueError "Invalid json data"));;
  has ← lift (contains (str "src") data);
  when (negb has) (raise (ValueError "Invalid json data, src is required"));;
  has ← lift (contains (str "dst") data);
  when (negb has) (raise (ValueError "Invalid json data, dst is required"));;
  has ← lift (contains (str "amount") data);
  when (negb has) (raise (ValueError "Invalid json data, amount is required"));;
  has ← lift (contains (str "from") data);
  when (negb has) (raise (ValueError "Invalid json data, from is required"));;
  has ← lift (contains (str "slippage") data);
  when (negb has) (raise (ValueError "Invalid json data, slippage is required")).

(** Lines 34 to 47, the dict [requestOptions]. *)
Definition build_request (data : pyval) : prog (gmap pystr pyval) :=
  src ← lift (subscript data (str "src"));
  dst ← lift (subscript data (str "dst"));
  amount ← lift (subscript data (str "amount"));
  from ← lift (subscript data (str "from"));
  slippage ← lift (subscript data (str "slippage"));
  mret ({[ str "headers" := headers_of authorization;
           str "body" := PDict ∅;
           str "params" := params_of src dst amount from slippage ]}
        : gmap pystr pyval).

(** [open(path, "w")]: the file is created or emptied, or the call
    raises ([FileNotFoundError], [IsADirectoryError], ...). *)
Definition open_file (path : pystr) : prog () :=
  match sys_open sys path with
  | Ok _ => emit (FileOpen path)
  | Raise x => raise x
  end.

(** [json.dump(v, f)] into the file opened at [path]. *)
Definition dump_file (path : pystr) (v : pyval) : prog () :=
  match sys_dump sys path v with
  | Ok _ => emit (FileDump v)
  | Raise x => raise x
  end.

(** [print(v)]: the text goes to the standard output, or the call raises
    ([UnicodeEncodeError] for text the output cannot encode). *)
Definition print_out (v : pyval) : prog () :=
  match sys_print sys v with
  | Ok _ => emit (Print v)
  | Raise x => raise x
  end.

(** Lines 55 to 57: the file is opened before [response.json()] is
    evaluated. *)
Definition write_output (output : option pystr) (response : response) : prog () :=
  match output with
  | Some path =>
      when (negb (length path =? 0)%nat)
           (open_file path;;
            v ← lift (json response);
            dump_file path v)
  | None => mret ()
  end.

(** Line 58. *)
Definition print_payload (response : response) : prog () :=
  v ← lift (json response);
  tx ← lift (subscript v (str "tx"));
  payload ← lift (subscript tx (str "data"));
  print_out payload.

(** The script from line 20 on, for the parsed [data] and the value of
    [--output]. *)
Definition main (output : option pystr) (data : pyval) : prog () :=
  validate data;;
  requestOptions ← build_request data;
  let headers := default (PDict ∅) (requestOptions !! str "headers") in
  let body := default (PDict ∅) (requestOptions !! str "body") in
  let params := default (PDict ∅) (requestOptions !! str "params") in
  response ← http_get apiUrl headers params;
  write_output output response;;
  print_payload response.
End script.

Definition required_fields : list pystr :=
  [str "src"; str "dst"; str "amount"; str "from"; str "slippage"].

Definition is_get (ev : event) : bool :=
  match ev with
  | NetGet _ _ _ => true
  | _ => false
  end.

(** The number of network calls of a run. *)
Definition gets {A} (p : prog A) : nat := length (filter is_get (fst p)).

(** Sample inputs: a request without [slippage] and the same request
    completed, a network that is down, one that answers with a payload and
    one that answers with an error body. *)
Definition sample_partial : gmap pystr pyval :=
  {[ str "src" := PStr (str "0xaf88"); str "dst" := PStr (str "0x82af");
     str "amount" := PStr (str "1000000"); str "from" := PStr (str "0x1111") ]}.

Definition sample_complete : gmap pystr pyval :=
  <[ str "slippage" := PInt 1 ]> sample_partial.

Definition sample_params : pyval :=
  params_of (PStr (str "0xaf88")) (PStr (str "0x82af"))
            (PStr (str "1000000")) (PStr (str "0x1111")) (PInt 1).

Definition network_down : pystr → pyval → pyval → result response :=
  λ _ _ _, Raise (RequestException "ConnectionError").

Definition payload_body : pyval :=
  PDict {[ str "tx" := PDict {[ str "data" := PStr (str "0x07ed") ]} ]}.

Definition error_body : pyval :=
  PDict {[ str "error" := PStr (str "Unauthorized") ]}.

(** A body whose payload is a str with a lone surrogate. *)
Definition surrogate_body : pyval :=
  PDict {[ str "tx" := PDict {[ str "data" := PStr [0xD800%N] ]} ]}.

Definition network_answers (body : pyval) : pystr → pyval → pyval → result response :=
  λ _ _ _, Ok (Response (Ok body)).

(** Sample machines. On [host_ok] nothing fails. On [host_utf8 bad] the
    path [bad] cannot be opened, and the standard output is UTF-8: printing
    a str raises exactly when the str has no UTF-8 encoding. *)
Definition host_ok : host :=
  {| sys_open := λ _, Ok (); sys_dump := λ _ _, Ok (); sys_print := λ _, Ok () |}.

Definition print_utf8 (v : pyval) : result () :=
  match v with
  | PStr s => _ ← encode_utf8 s; Ok ()
  | _ => Ok ()
  end.

Definition host_utf8 (bad : pystr) : host :=
  {| sys_open := λ path, if bool_decide (path = bad)
                         then Raise (OSError "FileNotFoundError") else Ok ();
     sys_dump := λ _ _, Ok ();
     sys_print := print_utf8 |}.

(** The file that line 55 writes: the value of [--output] when
    [if args.output:] holds, that is when it is given and not empty. *)
Definition output_file (output : option pystr) : option pystr :=
  match output with
  | Some path => if (length path =? 0)%nat then None else Some path
  | None => None
  end.

(** The events of lines 55 to 57 once the body is parsed. *)
Definition dump_events (output : option pystr) (body : pyval) : list event :=
  match output_file output with
  | Some path => [FileOpen path; FileDump body]
  | None => []
  end.

(** The first of the five keys, in the order of the checks of lines 22 to
    31, that a dict lacks. *)
Definition first_missing (d : gmap pystr pyval) : option string :=
  List.find (λ k, if d !! str k is Some _ then false else true)
            ["src"; "dst"; "amount"; "from"; "slippage"]%string.

Definition is_dict (v : pyval) : bool :=
  match v with
  | PDict _ => true
  | _ => false
  end.

Definition is_print (ev : event) : bool :=
  match ev with
  | Print _ => true
  | _ => false
  end.

Definition is_file_event (ev : event) : bool :=
  match ev with
  | FileOpen _ | FileDump _ => true
  | _ => false
  end.

(** The events that may follow the network call: nothing, the opening of
    the output file, the opening and the dump, and after either nothing or
    the dump, the print. *)
Definition after_get (t : list event) : bool :=
  match t with
  | [] | [FileOpen _] | [FileOpen _; FileDump _]
  | [FileOpen _; FileDump _; Print _] | [Print _] => true
  | _ => false
  end.

End Inch.
Import Py ErrorHashes.

(** * Part 2: properties *)

(** ** The hash primitive *)
Section keccak_facts.
Import Keccak.

(** Known answers of Keccak-256: the empty message and "abc". *)
Example keccak_256_empty :
  hex (keccak_256 []) =
  str "c5d2460186f7233c927e7db2dcc703c0e500b653ca82273b7bfad8045d85a470".
Proof. vm_compute. reflexivity. Qed.

Example keccak_256_abc :
  hex (keccak_256 [x61; x62; x63]) =
  str "4e03657aea45a94fc7d47ba826c8d667c0d1e6e33a64a036ec44f58fa12d6c45".
Proof. vm_compute. reflexivity. Qed.

(** Known answers of SHA3-256 around and beyond the rate: 135, 136, 137
    and 300 bytes "a", and 200 bytes 0xa3. *)
Example sha3_256_rate_boundary :
  hex (sha3_256 (replicate 135 x61)) =
    str "8094bb53c44cfb1e67b7c30447f9a1c33696d2463ecc1d9c92538913392843c9" ∧
  hex (sha3_256 (replicate 136 x61)) =
    str "3fc5559f14db8e453a0a3091edbd2bc25e11528d81c66fa570a4efdcc2695ee1" ∧
  hex (sha3_256 (replicate 137 x61)) =
    str "f8d6846cedd2ccfadf15c5879ef95af724d799eed7391fb1c91f95344e738614" ∧
  hex (sha3_256 (replicate 300 x61)) =
    str "8a5720b2ca0cae7b89ad399c5daab22c29f5c72bcf30ab81e807d9bda95b4580" ∧
  hex (sha3_256 (replicate 200 xa3)) =
    str "79f38adec5c20307a98ef76e8324afbfd46cfd81b22e3973c65fa1bd9de31787".
Proof. repeat apply conj; vm_compute; reflexivity. Qed.

(** The two tables are the ones the Keccak definition generates. *)
Lemma round_constants_lfsr : lfsr_constants 24 1 = round_constants.
Proof. vm_compute. reflexivity. Qed.

Lemma rotation_offsets_walk :
  walk_offsets 24 0 1 0 (replicate 25 0%N) = rotation_offsets.
Proof. vm_compute. reflexivity. Qed.

Lemma length_lane_bytes l : length (lane_bytes l) = 8.
Proof. unfold lane_bytes. rewrite length_map, length_seq. reflexivity. Qed.

Lemma length_squeeze A : length (squeeze A) = 32.
Proof.
  unfold squeeze. rewrite !length_app, !length_lane_bytes. reflexivity.
Qed.

Lemma length_sponge_256 suffix msg : length (sponge_256 suffix msg) = 32.
Proof.
  unfold sponge_256. destruct (absorb _ _ msg) as [A pos].
  apply length_squeeze.
Qed.

(** The hash has 256 bits whatever the message. *)
Lemma length_keccak_256 msg : length (keccak_256 msg) = 32.
Proof. apply length_sponge_256. Qed.

Lemma byte_of_to_N b : byte_of_N (Byte.to_N b) = b.
Proof. destruct b; reflexivity. Qed.
End keccak_facts.

(** ** Encoding and hexadecimal *)
Section py_facts.
Local Open Scope N_scope.

(** Case analysis on every comparison of the goal. *)
Ltac compare_all :=
  repeat first
    [ match goal with |- context [(?a <? ?b)] => destruct (N.ltb_spec a b) end
    | match goal with |- context [(?a <=? ?b)] => destruct (N.leb_spec a b) end ];
  cbn [andb orb negb].

Lemma scalar_value_true c :
  scalar_value c = true ↔ c < 0xD800 ∨ (0xDFFF < c ∧ c < 0x110000).
Proof.
  unfold scalar_value.
  rewrite orb_true_iff, andb_true_iff, !N.ltb_lt. reflexivity.
Qed.

Lemma utf8_char_scalar c :
  scalar_value c = true → ∃ b, utf8_char c = Ok b.
Proof.
  rewrite scalar_value_true. unfold utf8_char. intros H.
  compare_all; eauto; exfalso; lia.
Qed.

Lemma utf8_char_raises c :
  scalar_value c = false → utf8_char c = Raise (UnicodeEncodeError c).
Proof.
  intros H. assert (¬ (c < 0xD800 ∨ (0xDFFF < c ∧ c < 0x110000))) as Hn.
  { rewrite <- scalar_value_true. congruence. }
  unfold utf8_char. compare_all; try reflexivity; exfalso; lia.
Qed.

(** A text is encoded exactly when it holds no surrogate. *)
Lemma encodable_encode s :
  encodable s = true ↔ ∃ b, encode_utf8 s = Ok b.
Proof.
  induction s as [|c s IH]; cbn.
  - split; eauto.
  - rewrite andb_true_iff, IH. split.
    + intros [Hc [bs Hbs]]. apply utf8_char_scalar in Hc as [b Hb].
      rewrite Hb, Hbs. cbn. eauto.
    + intros [b Hb]. destruct (scalar_value c) eqn:Hc.
      * split; [reflexivity|].
        destruct (utf8_char c); [|discriminate].
        cbn in Hb. destruct (encode_utf8 s); [eauto | discriminate].
      * rewrite (utf8_char_raises _ Hc) in Hb. discriminate.
Qed.

(** Known encodings of one, two, three and four bytes: "A", e with acute
    accent (U+00E9), the euro sign (U+20AC) and U+1F600. *)
Example encode_utf8_known :
  encode_utf8 [0x41; 0xE9; 0x20AC; 0x1F600] =
  Ok [x41; xc3; xa9; xe2; x82; xac; xf0; x9f; x98; x80].
Proof. reflexivity. Qed.

(** A lone surrogate has no encoding: the strict encoder raises. *)
Example encode_utf8_surrogate :
  encode_utf8 [0xD800] = Raise (UnicodeEncodeError 0xD800).
Proof. reflexivity. Qed.

(** ASCII text is its own encoding. *)
Lemma encode_utf8_ascii s :
  Forall (λ c, c < 0x80) s → encode_utf8 s = Ok (map Keccak.byte_of_N s).
Proof.
  induction 1 as [|c s Hc _ IH]; [reflexivity|].
  cbn. unfold utf8_char. destruct (N.ltb_spec c 0x80); [|lia].
  cbn. rewrite IH. reflexivity.
Qed.

Lemma keccak_encoded d b :
  encode_utf8 d = Ok b → keccak d = Ok (Keccak.keccak_256 b).
Proof. unfold keccak. intros ->. reflexivity. Qed.

Lemma hex_cons b bs :
  hex (b :: bs) =
  hex_digit (Byte.to_N b / 16) :: hex_digit (Byte.to_N b mod 16) :: hex bs.
Proof. reflexivity. Qed.

Lemma length_hex bs : length (hex bs) = (2 * length bs)%nat.
Proof.
  induction bs as [|b bs IH]; [reflexivity|].
  rewrite hex_cons. cbn [length]. rewrite IH. lia.
Qed.

Lemma hex_digit_lower n : n < 16 → lower_hex_digit (hex_digit n) = true.
Proof.
  intros H. unfold lower_hex_digit, hex_digit.
  destruct (N.ltb_spec n 10); compare_all; try reflexivity; lia.
Qed.

Lemma to_N_bound b : Byte.to_N b < 256.
Proof. destruct b; reflexivity. Qed.

(** Every character of [hex] is one of 0-9, a-f. *)
Lemma hex_lower bs : forallb lower_hex_digit (hex bs) = true.
Proof.
  induction bs as [|b bs IH]; [reflexivity|].
  pose proof (to_N_bound b) as Hb.
  assert (Byte.to_N b / 16 < 16) as Hhi
    by (apply N.Div0.div_lt_upper_bound; lia).
  assert (Byte.to_N b mod 16 < 16) as Hlo by (apply N.mod_lt; lia).
  rewrite hex_cons. cbn [forallb].
  rewrite (hex_digit_lower _ Hhi), (hex_digit_lower _ Hlo), IH. reflexivity.
Qed.

Lemma digit_value_hex_digit n :
  n < 16 → digit_value (hex_digit n) = Some n.
Proof.
  intros H. unfold digit_value, hex_digit.
  destruct (N.ltb_spec n 10); compare_all; try (f_equal; lia); exfalso; lia.
Qed.

(** Reading the digits back gives the bytes, in the same order. *)
Lemma fromhex_hex bs : fromhex (hex bs) = Some bs.
Proof.
  induction bs as [|b bs IH]; [reflexivity|].
  pose proof (to_N_bound b) as Hb.
  assert (Byte.to_N b / 16 < 16) as Hhi
    by (apply N.Div0.div_lt_upper_bound; lia).
  assert (Byte.to_N b mod 16 < 16) as Hlo by (apply N.mod_lt; lia).
  rewrite hex_cons. cbn [fromhex].
  rewrite (digit_value_hex_digit _ Hhi), (digit_value_hex_digit _ Hlo), IH.
  cbn. rewrite <- N.div_mod by lia. rewrite byte_of_to_N. reflexivity.
Qed.
End py_facts.

(** ** [error_hashes.py]: the loop and the selectors *)
Section selector_facts.
Import Keccak.

(** The four bytes named by the specification are the slice [[:4]]. *)
Lemma reference_selector_take b : reference_selector b = take 4 (keccak_256 b).
Proof.
  unfold reference_selector. pose proof (length_keccak_256 b) as Hlen.
  destruct (keccak_256 b) as [|b0 [|b1 [|b2 [|b3 rest]]]];
    cbn in Hlen; try lia; reflexivity.
Qed.

Lemma length_reference_selector b : length (reference_selector b) = 4.
Proof.
  rewrite reference_selector_take, length_take, length_keccak_256.
  reflexivity.
Qed.

Lemma derive_selector_encoded d b :
  encode_utf8 d = Ok b → derive_selector d = Ok (reference_selector b).
Proof.
  intros H. unfold derive_selector. rewrite (keccak_encoded _ _ H).
  rewrite reference_selector_take. reflexivity.
Qed.

Lemma derive_selector_raises d x :
  encode_utf8 d = Raise x → derive_selector d = Raise x.
Proof. unfold derive_selector, keccak. intros ->. reflexivity. Qed.

(** One run of the loop body on a text with encoding [b]. *)
Lemma loop_body_encoded d b e :
  encode_utf8 d = Ok b →
  loop_body d e =
    ({| signature := Some d;
        hash_bytes := Some (keccak_256 b);
        selector := Some (hex (reference_selector b));
        stdout := stdout e ++ [format_line d (hex (reference_selector b))] |},
     Ok ()).
Proof.
  intros H. unfold loop_body. rewrite (keccak_encoded _ _ H).
  rewrite reference_selector_take. reflexivity.
Qed.

Lemma loop_body_raises d x e :
  encode_utf8 d = Raise x →
  loop_body d e =
    ({| signature := Some d; hash_bytes := hash_bytes e;
        selector := selector e; stdout := stdout e |}, Raise x).
Proof. intros H. unfold loop_body, keccak. rewrite H. reflexivity. Qed.

(** The loop over texts that all have an encoding runs to its end and
    prints one line per text, in order. *)
Lemma for_loop_encoded S bs :
  Forall2 (λ d b, encode_utf8 d = Ok b) S bs →
  ∀ e, ∃ e', for_loop S e = (e', Ok ()) ∧
             stdout e' = stdout e ++ zip_with entry_line S bs.
Proof.
  induction 1 as [|d b S bs Hd _ IH]; intros e.
  - exists e. cbn. rewrite app_nil_r. auto.
  - cbn [for_loop]. rewrite (loop_body_encoded _ _ e Hd).
    edestruct IH as [e' [Hrun Hout]]. exists e'. split; [exact Hrun|].
    rewrite Hout. cbn. rewrite <- app_assoc. reflexivity.
Qed.

Lemma encodable_all S :
  forallb encodable S = true →
  ∃ bs, Forall2 (λ d b, encode_utf8 d = Ok b) S bs.
Proof.
  induction S as [|d S IH]; cbn.
  - exists []. constructor.
  - rewrite andb_true_iff. intros [Hd HS].
    apply encodable_encode in Hd as [b Hb]. destruct (IH HS) as [bs Hbs].
    exists (b :: bs). constructor; assumption.
Qed.

Lemma length_entry_line d b : length (entry_line d b) = (length d + 12)%nat.
Proof.
  unfold entry_line, format_line.
  rewrite !length_app, length_hex, length_reference_selector. reflexivity.
Qed.

(** The declaration is read back from its line. *)
Lemma line_declaration_entry d b : line_declaration (entry_line d b) = d.
Proof.
  unfold line_declaration. rewrite length_entry_line.
  unfold entry_line, format_line. apply take_app_length'. lia.
Qed.

Lemma line_declarations S bs :
  length S = length bs →
  map line_declaration (zip_with entry_line S bs) = S.
Proof.
  revert bs. induction S as [|d S IH]; intros [|b bs] Hlen;
    cbn in *; try discriminate; [reflexivity|].
  rewrite line_declaration_entry, IH by lia. reflexivity.
Qed.
End selector_facts.

Section report_facts.
Import Keccak.

Lemma entry_line_reports d b :
  encode_utf8 d = Ok b → reports d (entry_line d b).
Proof.
  intros H. exists (reference_selector b).
  pose proof (length_reference_selector b) as Hlen.
  repeat apply conj.
  - apply derive_selector_encoded, H.
  - exact Hlen.
  - reflexivity.
  - rewrite length_hex, Hlen. reflexivity.
  - apply hex_lower.
  - apply fromhex_hex.
Qed.

Lemma entry_lines_report S bs :
  Forall2 (λ d b, encode_utf8 d = Ok b) S bs →
  Forall2 reports S (zip_with entry_line S bs).
Proof.
  induction 1 as [|d b S bs Hd _ IH]; cbn; constructor;
    [apply entry_line_reports, Hd | exact IH].
Qed.

(** The report over declarations that all have an encoding. *)
Lemma report_all_encoded S bs :
  Forall2 (λ d b, encode_utf8 d = Ok b) S bs →
  ∃ e, report_all S = (e, Ok ()) ∧ stdout e = zip_with entry_line S bs.
Proof.
  intros H. destruct (for_loop_encoded S bs H fresh) as [e [Hrun Hout]].
  exists e. split; [exact Hrun | exact Hout].
Qed.

Lemma selectors_exist S bs :
  Forall2 (λ d b, encode_utf8 d = Ok b) S bs →
  Forall (λ d, ∃ sel, derive_selector d = Ok sel) S.
Proof.
  induction 1 as [|d b S bs Hd _ IH]; constructor; [|exact IH].
  exists (reference_selector b). apply derive_selector_encoded, Hd.
Qed.

(** The declarations of the registry are ASCII text. *)
Lemma registry_encodable : forallb encodable error_signatures = true.
Proof. vm_compute. reflexivity. Qed.

(** No selector occurs twice among those of the registry. *)
Lemma registry_selectors_nodup : NoDup (derive_selector <$> error_signatures).
Proof. apply (bool_decide_unpack _). vm_compute. exact I. Qed.
End report_facts.

(** The whole output of the script. *)
Example main_output :
  main =
  ({| signature := Some (str "InvalidStrategyStatus(uint8)");
      hash_bytes := Some (Keccak.keccak_256
                            (Keccak.byte_of_N <$> str "InvalidStrategyStatus(uint8)"));
      selector := Some (str "d5c37bed");
      stdout := str <$>
        [ "ZeroShares(): 0x9811e0c7";
          "RequestNotExecuted(): 0xbe9c30b4";
          "RequestAlreadyClaimed(): 0x54e19feb";
          "UnauthorizedClaimer(address,address): 0x3ebd5fe5";
          "InchSwapInvailidTokens(): 0x23697774";
          "InchSwapAmountExceedsBalance(uint256,uint256): 0x2708910a";
          "InchInvalidReceiver(): 0x2a5587f5";
          "InchInvalidAmount(uint256,uint256): 0x369c6710";
          "IncosistentParamsLength(): 0x53dd5ba1";
          "CallerNotFactory(): 0xa84178ab";
          "CallerNotStrategy(): 0xe62efec7";
          "CallerNotKeeper(): 0x04e1fa9f";
          "InvalidMarket(): 0x9db8d5b1";
          "InvalidInitializationAssets(): 0x4826adec";
          "CallbackNotAllowed(): 0xa1ee364f";
          "ZeroAddress(): 0xd92e233d";
          "ArrayLengthMissmatch(): 0x7f4415ae";
          "AlreadyPending(): 0x49b204ce";
          "InvalidFeedPrice(address,int256): 0xbe6514b6";
          "PriceFeedNotUpdated(address,uint256,uint256): 0x90ce1673";
          "PriceFeedNotConfigured(): 0x197d2fcb";
          "EmptyPriceFeedMultiplier(address): 0xcc111885";
          "InsufficientExecutionFee(uint256,uint256): 0x5dac504d";
          "OracleInvalidPrice(): 0xc969c593";
          "InsufficientIdleBalanceForUtilize(uint256,uint256): 0x6da0c708";
          "InsufficientProdcutBalanceForDeutilize(uint256,uint256): 0xc4cff2b1";
          "UnsupportedSwapType(): 0xc8bde227";
          "UnAuthorizedForwarder(address): 0x7eeb1711";
          "NotPositivePnl(): 0xcaccd7a6";
          "ActiveRequestIsNotClosed(bytes32): 0xe0d268a1";
          "StatusNotIdle(): 0x3434c1d2";
          "ZeroPendingUtilization(): 0xe6e0bb16";
          "ZeroAmountUtilization(): 0x6fa490cd";
          "CallerNotPositionManager(): 0xabd80224";
          "CallerNotAgent(): 0xd7800e18";
          "InvalidRequestId(bytes32,bytes32): 0x0bb309a2";
          "InvalidCallback(): 0xf7a632f5";
          "InvalidActiveRequestType(): 0x5e4245eb";
          "InsufficientCollateralBalance(uint256,uint256): 0x7be345c8";
          "NoActiveRequests(): 0x569d1429";
          "CallerNotOperator(): 0xa5523ee5";
          "InvalidStrategyStatus(uint8): 0xd5c37bed" ]%string |},
   Ok ()).
Proof. vm_compute. reflexivity. Qed.

(** Outside the declarations: a text with a lone surrogate has no byte
    encoding, [keccak] raises on it and the loop ends there, after the
    lines of the texts before it. *)
Example report_all_surrogate :
  derive_selector [0xD800%N] = Raise (UnicodeEncodeError 0xD800) ∧
  snd (report_all [str "A()"; [0xD800%N]; str "B()"]) =
    Raise (UnicodeEncodeError 0xD800) ∧
  length (stdout (fst (report_all [str "A()"; [0xD800%N]; str "B()"]))) = 1.
Proof. repeat apply conj; vm_compute; reflexivity. Qed.

(** A mutated declaration gets another selector. *)
Example selector_mutation :
  derive_selector (str "ZeroAddress()") ≠ derive_selector (str "ZeroAddresss()").
Proof. vm_compute. discriminate. Qed.

(** ** The properties of [error_hashes.py] *)

(** C1. For every declaration [d] with byte encoding [b], the selector is
    the first four bytes of the Keccak-256 hash of [b], each at the
    position where the hash emits it; the loop body stores exactly that
    hash and prints digits that read back as exactly those four bytes.
    For "ZeroAddress()" the selector is d9 2e 23 3d. *)
Theorem derive_selector_keccak_prefix :
  (∀ d b, encode_utf8 d = Ok b →
     derive_selector d = Ok (reference_selector b) ∧
     (∀ i, i < 4 → reference_selector b !! i = Keccak.keccak_256 b !! i) ∧
     (∀ e, ∃ e' sel,
        loop_body d e = (e', Ok ()) ∧
        hash_bytes e' = Some (Keccak.keccak_256 b) ∧
        selector e' = Some sel ∧
        fromhex sel = Some (reference_selector b))) ∧
  derive_selector (str "ZeroAddress()") = Ok [xd9; x2e; x23; x3d].
Proof.
  split; [|vm_compute; reflexivity].
  intros d b H. repeat apply conj.
  - apply derive_selector_encoded, H.
  - intros i Hi. rewrite reference_selector_take. apply lookup_take_lt, Hi.
  - intros e. eexists _, _. rewrite (loop_body_encoded _ _ e H).
    repeat apply conj; try reflexivity. apply fromhex_hex.
Qed.

Lemma derive_selector_keccak_prefix_witness :
  encode_utf8 (str "ZeroAddress()") = Ok (Keccak.byte_of_N <$> str "ZeroAddress()") ∧
  derive_selector (str "ZeroAddress()") =
    Ok (reference_selector (Keccak.byte_of_N <$> str "ZeroAddress()")).
Proof.
  split; [reflexivity|].
  apply (proj1 derive_selector_keccak_prefix (str "ZeroAddress()")).
  reflexivity.
Defined.

(** C2. For every sequence [S] of declarations (texts that have a byte
    encoding), the report runs to its end without an exception, prints as
    many lines as [S] has entries, and the declarations of the lines, read
    in order, are [S] itself: the line at each position is the report of
    the declaration at that position. *)
Theorem report_all_preserves_order (S : list pystr) :
  forallb encodable S = true →
  ∃ e, report_all S = (e, Ok ()) ∧
       length (stdout e) = length S ∧
       map line_declaration (stdout e) = S ∧
       Forall2 reports S (stdout e).
Proof.
  intros HS. destruct (encodable_all S HS) as [bs Hbs].
  destruct (report_all_encoded S bs Hbs) as [e [Hrun Hout]].
  pose proof (Forall2_length _ _ _ Hbs) as Hlen.
  exists e. rewrite Hout. repeat apply conj.
  - exact Hrun.
  - rewrite length_zip_with. lia.
  - apply line_declarations, Hlen.
  - apply entry_lines_report, Hbs.
Qed.

Lemma report_all_preserves_order_witness :
  forallb encodable [str "Transfer(address)"; str "ZeroAddress()"; str "Transfer(address)"] = true ∧
  ∃ e, report_all [str "Transfer(address)"; str "ZeroAddress()"; str "Transfer(address)"] = (e, Ok ()) ∧
       length (stdout e) = 3 ∧
       map line_declaration (stdout e) =
         [str "Transfer(address)"; str "ZeroAddress()"; str "Transfer(address)"] ∧
       Forall2 reports [str "Transfer(address)"; str "ZeroAddress()"; str "Transfer(address)"] (stdout e).
Proof.
  split; [reflexivity|].
  apply (report_all_preserves_order
           [str "Transfer(address)"; str "ZeroAddress()"; str "Transfer(address)"]).
  reflexivity.
Defined.

(** C3. The derivation is total on byte-sequence inputs: every text with
    a byte encoding [b], whatever [b] is, gets a selector, and the loop
    body ends without an exception in every environment. The empty text is
    encoded as the empty byte sequence and gets the first four bytes of the
    hash of the empty message. *)
Theorem derive_selector_total :
  (∀ d b, encode_utf8 d = Ok b →
     (∃ sel, derive_selector d = Ok sel) ∧
     ∀ e, snd (loop_body d e) = Ok ()) ∧
  encode_utf8 [] = Ok [] ∧
  derive_selector [] = Ok (take 4 (Keccak.keccak_256 [])) ∧
  derive_selector [] = Ok [xc5; xd2; x46; x01].
Proof.
  split; [|repeat apply conj; vm_compute; reflexivity].
  intros d b H. split.
  - exists (reference_selector b). apply derive_selector_encoded, H.
  - intros e. rewrite (loop_body_encoded _ _ e H). reflexivity.
Qed.

Lemma derive_selector_total_witness :
  encode_utf8 (str "f(uint8)") = Ok (Keccak.byte_of_N <$> str "f(uint8)") ∧
  (∃ sel, derive_selector (str "f(uint8)") = Ok sel) ∧
  ∀ e, snd (loop_body (str "f(uint8)") e) = Ok ().
Proof.
  split; [reflexivity|].
  apply (proj1 derive_selector_total (str "f(uint8)")
               (Keccak.byte_of_N <$> str "f(uint8)")).
  reflexivity.
Defined.

(** C4. The script runs to its end and prints, for the declarations of
    the registry in their order, one line each: the declaration, then
    [": 0x"], then the 8 lowercase hexadecimal digits of its 4 selector
    bytes, two per byte with nothing between them, in the order of the
    bytes. *)
Theorem registry_report_lines :
  ∃ e, main = (e, Ok ()) ∧
       length (stdout e) = length error_signatures ∧
       Forall2 reports error_signatures (stdout e).
Proof.
  destruct (encodable_all _ registry_encodable) as [bs Hbs].
  destruct (report_all_encoded _ bs Hbs) as [e [Hrun Hout]].
  exists e. rewrite Hout. repeat apply conj.
  - exact Hrun.
  - rewrite length_zip_with. pose proof (Forall2_length _ _ _ Hbs). lia.
  - apply entry_lines_report, Hbs.
Qed.

(** C5. The selector of a declaration depends on the declaration alone:
    run in any two environments, the loop body ends the same way, and
    either both runs leave the same hash, the same selector and append the
    same line, or both raise the same exception. *)
Theorem derive_selector_deterministic (d : pystr) (e1 e2 : env) :
  snd (loop_body d e1) = snd (loop_body d e2) ∧
  match derive_selector d with
  | Ok sel =>
      selector (fst (loop_body d e1)) = Some (hex sel) ∧
      selector (fst (loop_body d e2)) = Some (hex sel) ∧
      hash_bytes (fst (loop_body d e1)) = hash_bytes (fst (loop_body d e2)) ∧
      stdout (fst (loop_body d e1)) = stdout e1 ++ [format_line d (hex sel)] ∧
      stdout (fst (loop_body d e2)) = stdout e2 ++ [format_line d (hex sel)]
  | Raise x =>
      snd (loop_body d e1) = Raise x ∧ snd (loop_body d e2) = Raise x
  end.
Proof.
  destruct (encode_utf8 d) as [b|x] eqn:H.
  - rewrite (derive_selector_encoded _ _ H), !(loop_body_encoded _ _ _ H).
    cbn. repeat apply conj; reflexivity.
  - rewrite (derive_selector_raises _ _ H), !(loop_body_raises _ _ _ H).
    cbn. repeat apply conj; reflexivity.
Qed.

(** C7, as the code has it. The registry holds 42 declarations; every one
    of them gets a selector, and the 42 selectors are pairwise distinct:
    the entries at two different positions never have the same selector. *)
Theorem registry_selectors_distinct :
  length error_signatures = 42 ∧
  Forall (λ d, ∃ sel, derive_selector d = Ok sel) error_signatures ∧
  NoDup (derive_selector <$> error_signatures) ∧
  (∀ i j di dj,
     error_signatures !! i = Some di → error_signatures !! j = Some dj →
     i ≠ j → derive_selector di ≠ derive_selector dj).
Proof.
  repeat apply conj.
  - reflexivity.
  - destruct (encodable_all _ registry_encodable) as [bs Hbs].
    exact (selectors_exist _ _ Hbs).
  - exact registry_selectors_nodup.
  - intros i j di dj Hi Hj Hij Heq. apply Hij.
    apply (NoDup_lookup _ i j (derive_selector di) registry_selectors_nodup).
    + rewrite list_lookup_fmap, Hi. reflexivity.
    + rewrite list_lookup_fmap, Hj, Heq. reflexivity.
Qed.

Lemma registry_selectors_distinct_witness :
  error_signatures !! 0 = Some (str "ZeroShares()") ∧
  error_signatures !! 15 = Some (str "ZeroAddress()") ∧
  0 ≠ 15 ∧
  derive_selector (str "ZeroShares()") ≠ derive_selector (str "ZeroAddress()").
Proof.
  repeat apply conj; try reflexivity; try lia.
  apply (proj2 (proj2 (proj2 registry_selectors_distinct)) 0 15);
    [reflexivity | reflexivity | lia].
Defined.

(** C7, as stated: the registry does not hold 43 declarations. *)
Lemma registry_not_43_entries :
  ¬ (length error_signatures = 43 ∧
     NoDup (derive_selector <$> error_signatures)).
Proof. intros [H _]. vm_compute in H. discriminate H. Qed.

(** C8. The selector of every declaration with a byte encoding is exactly
    4 bytes long. *)
Theorem derive_selector_length (d : pystr) (b : list byte) :
  encode_utf8 d = Ok b →
  ∃ sel, derive_selector d = Ok sel ∧ length sel = 4.
Proof.
  intros H. exists (reference_selector b).
  split; [apply derive_selector_encoded, H | apply length_reference_selector].
Qed.

Lemma derive_selector_length_witness :
  encode_utf8 (str "StatusNotIdle()") = Ok (Keccak.byte_of_N <$> str "StatusNotIdle()") ∧
  ∃ sel, derive_selector (str "StatusNotIdle()") = Ok sel ∧ length sel = 4.
Proof.
  split; [reflexivity|].
  apply (derive_selector_length (str "StatusNotIdle()")
                                (Keccak.byte_of_N <$> str "StatusNotIdle()")).
  reflexivity.
Defined.

(** C9. The report of the empty sequence ends without an exception and
    prints nothing. *)
Theorem report_all_nil :
  snd (report_all []) = Ok () ∧ stdout (fst (report_all [])) = [].
Proof. split; reflexivity. Qed.

(** C10. The report of a declaration given twice has exactly two entries,
    and both pair the declaration with its selector: each of the two lines
    is the declaration, then [": 0x"], then the 8 lowercase digits that read
    back as the 4 selector bytes, the first four bytes of the hash of the
    declaration; nothing is filtered or merged. *)
Theorem report_all_duplicate (d : pystr) (b : list byte) :
  encode_utf8 d = Ok b →
  ∃ e sel line,
    report_all [d; d] = (e, Ok ()) ∧
    derive_selector d = Ok sel ∧
    sel = take 4 (Keccak.keccak_256 b) ∧ length sel = 4 ∧
    stdout e = [line; line] ∧
    line = d ++ str ": 0x" ++ hex sel ∧
    length (hex sel) = 8 ∧
    forallb lower_hex_digit (hex sel) = true ∧
    fromhex (hex sel) = Some sel ∧
    line_declaration line = d.
Proof.
  intros H.
  destruct (report_all_encoded [d; d] [b; b]) as [e [Hrun Hout]].
  { repeat constructor; exact H. }
  pose proof (length_reference_selector b) as Hlen.
  exists e, (reference_selector b), (entry_line d b). repeat apply conj.
  - exact Hrun.
  - apply derive_selector_encoded, H.
  - apply reference_selector_take.
  - exact Hlen.
  - exact Hout.
  - reflexivity.
  - rewrite length_hex, Hlen. reflexivity.
  - apply hex_lower.
  - apply fromhex_hex.
  - apply line_declaration_entry.
Qed.

Lemma report_all_duplicate_witness :
  encode_utf8 (str "ZeroShares()") = Ok (Keccak.byte_of_N <$> str "ZeroShares()") ∧
  ∃ e sel line,
    report_all [str "ZeroShares()"; str "ZeroShares()"] = (e, Ok ()) ∧
    derive_selector (str "ZeroShares()") = Ok sel ∧
    sel = take 4 (Keccak.keccak_256 (Keccak.byte_of_N <$> str "ZeroShares()")) ∧
    length sel = 4 ∧
    stdout e = [line; line] ∧
    line = str "ZeroShares()" ++ str ": 0x" ++ hex sel ∧
    length (hex sel) = 8 ∧
    forallb lower_hex_digit (hex sel) = true ∧
    fromhex (hex sel) = Some sel ∧
    line_declaration line = str "ZeroShares()".
Proof.
  split; [reflexivity|].
  apply (report_all_duplicate (str "ZeroShares()")
                              (Keccak.byte_of_N <$> str "ZeroShares()")).
  reflexivity.
Defined.

(** The two lines printed for "ZeroShares()" given twice. *)
Example duplicate_report_lines :
  stdout (fst (report_all [str "ZeroShares()"; str "ZeroShares()"])) =
    [str "ZeroShares(): 0x9811e0c7"; str "ZeroShares(): 0x9811e0c7"].
Proof. vm_compute. reflexivity. Qed.

(** ** [router/inch.py] *)
Section inch_facts.
Import Inch.
Context (requests_get : pystr → pyval → pyval → result response).
Context (authorization : pystr) (sys : host).

(** The checks of lines 20 to 31 on a dict, one after the other. *)
Lemma validate_dict (d : gmap pystr pyval) :
  validate (PDict d) =
    if (size d =? 0)%nat then raise (ValueError "Invalid json data")
    else if d !! str "src" is None
      then raise (ValueError "Invalid json data, src is required")
    else if d !! str "dst" is None
      then raise (ValueError "Invalid json data, dst is required")
    else if d !! str "amount" is None
      then raise (ValueError "Invalid json data, amount is required")
    else if d !! str "from" is None
      then raise (ValueError "Invalid json data, from is required")
    else if d !! str "slippage" is None
      then raise (ValueError "Invalid json data, slippage is required")
    else mret ().
Proof.
  unfold validate. cbn [contains truthy].
  destruct (size d =? 0)%nat; [reflexivity|].
  destruct (d !! str "src"); [|reflexivity].
  destruct (d !! str "dst"); [|reflexivity].
  destruct (d !! str "amount"); [|reflexivity].
  destruct (d !! str "from"); [|reflexivity].
  destruct (d !! str "slippage"); reflexivity.
Qed.

(** A dict without one of the required keys does not pass the checks. *)
Lemma validate_missing (d : gmap pystr pyval) (k : pystr) :
  k ∈ required_fields → d !! k = None →
  ∃ msg, validate (PDict d) = ([], Raise (ValueError msg)).
Proof.
  intros Hk Hnone. rewrite validate_dict.
  destruct (size d =? 0)%nat; [eexists; reflexivity|].
  destruct (d !! str "src") eqn:Hsrc; [|eexists; reflexivity].
  destruct (d !! str "dst") eqn:Hdst; [|eexists; reflexivity].
  destruct (d !! str "amount") eqn:Hamount; [|eexists; reflexivity].
  destruct (d !! str "from") eqn:Hfrom; [|eexists; reflexivity].
  destruct (d !! str "slippage") eqn:Hslippage; [|eexists; reflexivity].
  exfalso. unfold required_fields in Hk.
  repeat (apply elem_of_cons in Hk as [->|Hk]); try congruence.
  inversion Hk.
Qed.

(** A dict with the five keys passes them. *)
Lemma validate_complete (d : gmap pystr pyval) src dst amount from slippage :
  d !! str "src" = Some src → d !! str "dst" = Some dst →
  d !! str "amount" = Some amount → d !! str "from" = Some from →
  d !! str "slippage" = Some slippage →
  validate (PDict d) = ([], Ok ()).
Proof.
  intros Hsrc Hdst Hamount Hfrom Hslippage. rewrite validate_dict.
  destruct (size d =? 0)%nat eqn:Hsize.
  - apply Nat.eqb_eq, map_size_empty_iff in Hsize. subst d.
    rewrite lookup_empty in Hsrc. discriminate.
  - rewrite Hsrc, Hdst, Hamount, Hfrom, Hslippage. reflexivity.
Qed.

Lemma build_request_complete (d : gmap pystr pyval) src dst amount from slippage :
  d !! str "src" = Some src → d !! str "dst" = Some dst →
  d !! str "amount" = Some amount → d !! str "from" = Some from →
  d !! str "slippage" = Some slippage →
  build_request authorization (PDict d) =
    ([], Ok ({[ str "headers" := headers_of authorization;
                str "body" := PDict ∅;
                str "params" := params_of src dst amount from slippage ]})).
Proof.
  intros Hsrc Hdst Hamount Hfrom Hslippage. unfold build_request.
  cbn [subscript]. rewrite Hsrc, Hdst, Hamount, Hfrom, Hslippage.
  reflexivity.
Qed.

(** Binding a run after another adds its network calls at most. *)
Lemma gets_bind {A B} (m : prog A) (f : A → prog B) (n : nat) :
  (∀ a, gets (f a) ≤ n) → gets (m ≫= f) ≤ gets m + n.
Proof.
  intros Hf. destruct m as [t [a|x]]; unfold gets; cbn.
  - specialize (Hf a). unfold gets in Hf. destruct (f a) as [t' r]. cbn in *.
    rewrite filter_app, length_app. lia.
  - lia.
Qed.

Lemma gets_lift {A} (r : result A) : gets (lift r) = 0.
Proof. reflexivity. Qed.

Lemma gets_when (c : bool) (p : prog ()) : gets (when c p) ≤ gets p.
Proof. destruct c; unfold gets; cbn; lia. Qed.

Lemma gets_http_get url headers params :
  gets (http_get requests_get url headers params) = 1.
Proof. reflexivity. Qed.

Lemma gets_validate data : gets (validate data) = 0.
Proof.
  unfold validate, gets.
  repeat match goal with
         | |- context [truthy ?v] => destruct (truthy v)
         | |- context [contains ?k ?v] => destruct (contains k v) as [[|]|]
         end; reflexivity.
Qed.

Lemma gets_build_request data : gets (build_request authorization data) = 0.
Proof.
  unfold build_request, gets.
  repeat match goal with
         | |- context [subscript ?v ?k] => destruct (subscript v k)
         end; reflexivity.
Qed.

(** Lines 55 to 57, case by case. *)
Lemma write_output_cases (output : option pystr) (r : response) :
  write_output sys output r =
    match output_file output with
    | None => ([], Ok ())
    | Some path =>
        match sys_open sys path with
        | Raise x => ([], Raise x)
        | Ok _ =>
            match json r with
            | Raise x => ([FileOpen path], Raise x)
            | Ok body =>
                match sys_dump sys path body with
                | Raise x => ([FileOpen path], Raise x)
                | Ok _ => ([FileOpen path; FileDump body], Ok ())
                end
            end
        end
    end.
Proof.
  unfold write_output, output_file, open_file, dump_file.
  destruct output as [path|]; [|reflexivity].
  destruct (length path =? 0)%nat; [reflexivity|]. cbn [negb when].
  destruct (sys_open sys path) as [[]|x]; [|reflexivity].
  cbn [mbind prog_bind emit lift].
  destruct (json r) as [body|x]; [|reflexivity].
  destruct (sys_dump sys path body) as [[]|x]; reflexivity.
Qed.

(** Line 58, case by case. *)
Lemma print_payload_cases (r : response) :
  print_payload sys r =
    match json r with
    | Raise x => ([], Raise x)
    | Ok body =>
        match subscript body (str "tx") with
        | Raise x => ([], Raise x)
        | Ok tx =>
            match subscript tx (str "data") with
            | Raise x => ([], Raise x)
            | Ok payload =>
                match sys_print sys payload with
                | Raise x => ([], Raise x)
                | Ok _ => ([Print payload], Ok ())
                end
            end
        end
    end.
Proof.
  unfold print_payload, print_out. cbn [mbind prog_bind lift].
  destruct (json r) as [body|x]; [|reflexivity].
  destruct (subscript body _) as [tx|x]; [|reflexivity].
  destruct (subscript tx _) as [payload|x]; [|reflexivity].
  destruct (sys_print sys payload) as [[]|x]; reflexivity.
Qed.

Lemma gets_write_output (output : option pystr) (r : response) :
  gets (write_output sys output r) = 0.
Proof.
  rewrite write_output_cases.
  destruct (output_file output) as [path|]; [|reflexivity].
  destruct (sys_open sys path) as [[]|]; [|reflexivity].
  destruct (json r) as [body|]; [|reflexivity].
  destruct (sys_dump sys path body) as [[]|]; reflexivity.
Qed.

Lemma gets_print_payload (r : response) : gets (print_payload sys r) = 0.
Proof.
  rewrite print_payload_cases.
  destruct (json r) as [body|]; [|reflexivity].
  destruct (subscript body _) as [tx|]; [|reflexivity].
  destruct (subscript tx _) as [payload|]; [|reflexivity].
  destruct (sys_print sys payload) as [[]|]; reflexivity.
Qed.
End inch_facts.

(** C6. A parsed request object (a dict) that lacks one of [src], [dst],
    [amount], [from], [slippage] makes the script raise [ValueError] with
    no event at all before it, so no network call; when [requests.get]
    raises for the request of a complete dict, the script ends with that
    very exception after this single call, with no further call, file
    write or print; and no run makes more than one network call. *)
Theorem inch_validation_and_upstream_failure :
  (∀ requests_get authorization sys output (d : gmap pystr Inch.pyval) k,
     k ∈ Inch.required_fields → d !! k = None →
     ∃ msg, Inch.main requests_get authorization sys output (Inch.PDict d) =
            ([], Raise (ValueError msg))) ∧
  (∀ requests_get authorization sys output (d : gmap pystr Inch.pyval)
     src dst amount from slippage x,
     d !! str "src" = Some src → d !! str "dst" = Some dst →
     d !! str "amount" = Some amount → d !! str "from" = Some from →
     d !! str "slippage" = Some slippage →
     requests_get Inch.apiUrl (Inch.headers_of authorization)
                  (Inch.params_of src dst amount from slippage) = Raise x →
     Inch.main requests_get authorization sys output (Inch.PDict d) =
       ([Inch.NetGet Inch.apiUrl (Inch.headers_of authorization)
                     (Inch.params_of src dst amount from slippage)],
        Raise x)) ∧
  (∀ requests_get authorization sys output data,
     Inch.gets (Inch.main requests_get authorization sys output data) ≤ 1).
Proof.
  repeat apply conj.
  - intros get auth sys output d k Hk Hnone.
    destruct (validate_missing d k Hk Hnone) as [msg Hmsg].
    exists msg. unfold Inch.main. rewrite Hmsg. reflexivity.
  - intros get auth sys output d src dst amount from slippage x
           Hsrc Hdst Hamount Hfrom Hslippage Hget.
    unfold Inch.main.
    rewrite (validate_complete d _ _ _ _ _ Hsrc Hdst Hamount Hfrom Hslippage).
    rewrite (build_request_complete auth d _ _ _ _ _
               Hsrc Hdst Hamount Hfrom Hslippage).
    cbn [mbind Inch.prog_bind].
    change (({[ str "headers" := Inch.headers_of auth;
               str "body" := Inch.PDict ∅;
               str "params" := Inch.params_of src dst amount from slippage ]}
             : gmap pystr Inch.pyval) !! str "headers")
      with (Some (Inch.headers_of auth)).
    change (({[ str "headers" := Inch.headers_of auth;
               str "body" := Inch.PDict ∅;
               str "params" := Inch.params_of src dst amount from slippage ]}
             : gmap pystr Inch.pyval) !! str "params")
      with (Some (Inch.params_of src dst amount from slippage)).
    cbn [default from_option id]. unfold Inch.http_get. rewrite Hget.
    reflexivity.
  - intros get auth sys output data. unfold Inch.main.
    etransitivity; [apply (gets_bind _ _ 1)|rewrite gets_validate; lia].
    intros _.
    etransitivity; [apply (gets_bind _ _ 1)|rewrite gets_build_request; lia].
    intros opts.
    cbv zeta.
    etransitivity; [apply (gets_bind _ _ 0)|rewrite gets_http_get; lia].
    intros response.
    etransitivity; [apply (gets_bind _ _ 0)|rewrite gets_write_output; lia].
    intros _. rewrite gets_print_payload. lia.
Qed.

Lemma inch_validation_and_upstream_failure_witness :
  (str "slippage" ∈ Inch.required_fields ∧
   Inch.sample_partial !! str "slippage" = None ∧
   ∃ msg, Inch.main Inch.network_down (str "Bearer key") Inch.host_ok None
                    (Inch.PDict Inch.sample_partial) =
          ([], Raise (ValueError msg))) ∧
  Inch.main Inch.network_down (str "Bearer key") Inch.host_ok (Some (str "out.json"))
            (Inch.PDict Inch.sample_complete) =
    ([Inch.NetGet Inch.apiUrl (Inch.headers_of (str "Bearer key")) Inch.sample_params],
     Raise (RequestException "ConnectionError")).
Proof.
  assert (str "slippage" ∈ Inch.required_fields) as Hk
    by (do 4 apply list_elem_of_further; apply list_elem_of_here).
  assert (Inch.sample_partial !! str "slippage" = None) as Hnone
    by (vm_compute; reflexivity).
  split.
  - split; [exact Hk|]. split; [exact Hnone|].
    exact (proj1 inch_validation_and_upstream_failure
                 Inch.network_down (str "Bearer key") Inch.host_ok None
                 Inch.sample_partial (str "slippage") Hk Hnone).
  - apply (proj1 (proj2 inch_validation_and_upstream_failure)
                 Inch.network_down (str "Bearer key") Inch.host_ok (Some (str "out.json"))
                 Inch.sample_complete);
      vm_compute; reflexivity.
Defined.

(** A run that goes through: the payload of the response is printed, and
    the body is written to the output file as it came. *)
Example inch_run_ok :
  Inch.main (Inch.network_answers Inch.payload_body) (str "Bearer key") Inch.host_ok
            (Some (str "out.json")) (Inch.PDict Inch.sample_complete) =
    ([Inch.NetGet Inch.apiUrl (Inch.headers_of (str "Bearer key")) Inch.sample_params;
      Inch.FileOpen (str "out.json"); Inch.FileDump Inch.payload_body;
      Inch.Print (Inch.PStr (str "0x07ed"))],
     Ok ()).
Proof. vm_compute. reflexivity. Qed.

(** A response whose body has no [tx]: the body is still written as it
    came, then the subscript raises [KeyError]. *)
Example inch_run_error_body :
  Inch.main (Inch.network_answers Inch.error_body) (str "Bearer key") Inch.host_ok
            (Some (str "out.json")) (Inch.PDict Inch.sample_complete) =
    ([Inch.NetGet Inch.apiUrl (Inch.headers_of (str "Bearer key")) Inch.sample_params;
      Inch.FileOpen (str "out.json"); Inch.FileDump Inch.error_body],
     Raise (KeyError (str "tx"))).
Proof. vm_compute. reflexivity. Qed.

(** An output file that cannot be opened: [open] raises after the GET,
    before the body is parsed; nothing is written or printed. *)
Example inch_run_unopenable_output :
  Inch.main (Inch.network_answers Inch.payload_body) (str "Bearer key")
            (Inch.host_utf8 (str "missing/out.json"))
            (Some (str "missing/out.json")) (Inch.PDict Inch.sample_complete) =
    ([Inch.NetGet Inch.apiUrl (Inch.headers_of (str "Bearer key")) Inch.sample_params],
     Raise (OSError "FileNotFoundError")).
Proof. vm_compute. reflexivity. Qed.

(** A payload that the standard output cannot encode: [print] raises
    after the body was written to the output file; nothing is printed. *)
Example inch_run_unprintable_payload :
  Inch.main (Inch.network_answers Inch.surrogate_body) (str "Bearer key")
            (Inch.host_utf8 (str "missing/out.json"))
            (Some (str "out.json")) (Inch.PDict Inch.sample_complete) =
    ([Inch.NetGet Inch.apiUrl (Inch.headers_of (str "Bearer key")) Inch.sample_params;
      Inch.FileOpen (str "out.json"); Inch.FileDump Inch.surrogate_body],
     Raise (UnicodeEncodeError 0xD800)).
Proof. vm_compute. reflexivity. Qed.

(** Parsed data that is not a dict: a number is not iterable, and the
    empty list is rejected as falsy; neither reaches the network. *)
Example inch_run_not_a_dict :
  Inch.main (Inch.network_answers Inch.payload_body) (str "Bearer key") Inch.host_ok None
            (Inch.PInt 7) =
    ([], Raise (TypeError "argument of type 'int' is not iterable")) ∧
  Inch.main (Inch.network_answers Inch.payload_body) (str "Bearer key") Inch.host_ok None
            (Inch.PList []) =
    ([], Raise (ValueError "Invalid json data")).
Proof. split; vm_compute; reflexivity. Qed.


(** ** [router/inch.py]: the runs of the script, case by case *)
Section inch_runs.
Import Inch.
Context (requests_get : pystr → pyval → pyval → result response).
Context (authorization : pystr) (sys : host).

(** A failed check ends the script. *)
Lemma main_validate_raises (output : option pystr) (data : pyval) (x : exn) :
  validate data = ([], Raise x) →
  main requests_get authorization sys output data = ([], Raise x).
Proof. intros H. unfold main. rewrite H. reflexivity. Qed.

(** The run on a dict that has the five keys: the GET, then lines 55 to
    57, then line 58. *)
Lemma main_complete (output : option pystr) (d : gmap pystr pyval)
    (src dst amount from slippage : pyval) :
  d !! str "src" = Some src → d !! str "dst" = Some dst →
  d !! str "amount" = Some amount → d !! str "from" = Some from →
  d !! str "slippage" = Some slippage →
  main requests_get authorization sys output (PDict d) =
    let req := NetGet apiUrl (headers_of authorization)
                      (params_of src dst amount from slippage) in
    match requests_get apiUrl (headers_of authorization)
                       (params_of src dst amount from slippage) with
    | Raise x => ([req], Raise x)
    | Ok response =>
        match write_output sys output response with
        | (t, Raise x) => (req :: t, Raise x)
        | (t, Ok _) =>
            (req :: t ++ fst (print_payload sys response),
             snd (print_payload sys response))
        end
    end.
Proof.
  intros Hsrc Hdst Hamount Hfrom Hslippage. unfold main.
  rewrite (validate_complete d _ _ _ _ _
             Hsrc Hdst Hamount Hfrom Hslippage).
  rewrite (build_request_complete authorization d _ _ _ _ _
             Hsrc Hdst Hamount Hfrom Hslippage).
  cbn [mbind prog_bind].
  change (({[ str "headers" := headers_of authorization;
             str "body" := PDict ∅;
             str "params" := params_of src dst amount from slippage ]}
           : gmap pystr pyval) !! str "headers")
    with (Some (headers_of authorization)).
  change (({[ str "headers" := headers_of authorization;
             str "body" := PDict ∅;
             str "params" := params_of src dst amount from slippage ]}
           : gmap pystr pyval) !! str "params")
    with (Some (params_of src dst amount from slippage)).
  cbn [default from_option id]. unfold http_get.
  destruct (requests_get _ _ _) as [response|x]; [|reflexivity].
  cbn [mbind prog_bind].
  destruct (write_output sys output response) as [t [[]|x]]; [|reflexivity].
  destruct (print_payload sys response) as [t' r]. reflexivity.
Qed.

(** The same run, every case spelled out. *)
Lemma main_complete_cases (output : option pystr) (d : gmap pystr pyval)
    (src dst amount from slippage : pyval) :
  d !! str "src" = Some src → d !! str "dst" = Some dst →
  d !! str "amount" = Some amount → d !! str "from" = Some from →
  d !! str "slippage" = Some slippage →
  main requests_get authorization sys output (PDict d) =
    let req := NetGet apiUrl (headers_of authorization)
                      (params_of src dst amount from slippage) in
    match requests_get apiUrl (headers_of authorization)
                       (params_of src dst amount from slippage) with
    | Raise x => ([req], Raise x)
    | Ok r =>
        let finish (t : list event) :=
          match json r with
          | Raise x => (req :: t, Raise x)
          | Ok body =>
              match subscript body (str "tx") with
              | Raise x => (req :: t, Raise x)
              | Ok tx =>
                  match subscript tx (str "data") with
                  | Raise x => (req :: t, Raise x)
                  | Ok payload =>
                      match sys_print sys payload with
                      | Raise x => (req :: t, Raise x)
                      | Ok _ => (req :: t ++ [Print payload], Ok ())
                      end
                  end
              end
          end in
        match output_file output with
        | None => finish []
        | Some path =>
            match sys_open sys path with
            | Raise x => ([req], Raise x)
            | Ok _ =>
                match json r with
                | Raise x => ([req; FileOpen path], Raise x)
                | Ok body =>
                    match sys_dump sys path body with
                    | Raise x => ([req; FileOpen path], Raise x)
                    | Ok _ => finish [FileOpen path; FileDump body]
                    end
                end
            end
        end
    end.
Proof.
  intros Hsrc Hdst Hamount Hfrom Hslippage.
  rewrite (main_complete _ _ _ _ _ _ _ Hsrc Hdst Hamount Hfrom Hslippage).
  cbv zeta. destruct (requests_get _ _ _) as [r|x]; [|reflexivity].
  rewrite write_output_cases, print_payload_cases.
  destruct (output_file output) as [path|].
  - destruct (sys_open sys path) as [[]|]; [|reflexivity].
    destruct (json r) as [body|]; [|reflexivity].
    destruct (sys_dump sys path body) as [[]|]; [|reflexivity].
    destruct (subscript body _) as [tx|]; [|rewrite app_nil_r; reflexivity].
    destruct (subscript tx _) as [payload|]; [|rewrite app_nil_r; reflexivity].
    destruct (sys_print sys payload) as [[]|]; [reflexivity|].
    rewrite app_nil_r; reflexivity.
  - destruct (json r) as [body|]; [|reflexivity].
    destruct (subscript body _) as [tx|]; [|reflexivity].
    destruct (subscript tx _) as [payload|]; [|reflexivity].
    destruct (sys_print sys payload) as [[]|]; reflexivity.
Qed.

(** A dict either fails a check, or has the five keys. *)
Lemma main_dict_cases (output : option pystr) (d : gmap pystr pyval) :
  (∃ msg, main requests_get authorization sys output (PDict d) =
          ([], Raise (ValueError msg))) ∨
  (∃ src dst amount from slippage,
     d !! str "src" = Some src ∧ d !! str "dst" = Some dst ∧
     d !! str "amount" = Some amount ∧ d !! str "from" = Some from ∧
     d !! str "slippage" = Some slippage).
Proof.
  assert (∀ k, k ∈ required_fields → d !! k = None →
               ∃ msg, main requests_get authorization sys output (PDict d) =
                      ([], Raise (ValueError msg))) as Hmiss.
  { intros k Hk Hnone. destruct (validate_missing d k Hk Hnone) as [msg Hmsg].
    exists msg. apply main_validate_raises, Hmsg. }
  unfold required_fields in Hmiss.
  destruct (d !! str "src") as [src|] eqn:Hsrc;
    [|left; apply (Hmiss (str "src")); [repeat constructor | exact Hsrc]].
  destruct (d !! str "dst") as [dst|] eqn:Hdst;
    [|left; apply (Hmiss (str "dst")); [repeat constructor | exact Hdst]].
  destruct (d !! str "amount") as [amount|] eqn:Hamount;
    [|left; apply (Hmiss (str "amount")); [repeat constructor | exact Hamount]].
  destruct (d !! str "from") as [from|] eqn:Hfrom;
    [|left; apply (Hmiss (str "from")); [repeat constructor | exact Hfrom]].
  destruct (d !! str "slippage") as [slippage|] eqn:Hslippage;
    [|left; apply (Hmiss (str "slippage")); [repeat constructor | exact Hslippage]].
  right. exists src, dst, amount, from, slippage. auto.
Qed.

(** One step of the checks on data that is not a dict. *)
Ltac run_step :=
  cbn [mbind prog_bind mret prog_ret when negb lift raise emit
       contains truthy subscript fst snd];
  try match goal with
      | |- context [when (negb ?b)] => destruct b eqn:?
      | |- context [when ?b] => destruct b eqn:?
      end.

(** Data that is not a dict never gets past line 40: either a check
    fails, or [in] or the subscript raises [TypeError]. *)
Lemma main_non_dict (output : option pystr) (data : pyval) :
  is_dict data = false →
  fst (main requests_get authorization sys output data) = [] ∧
  ∃ msg, snd (main requests_get authorization sys output data) = Raise (ValueError msg) ∨
         snd (main requests_get authorization sys output data) = Raise (TypeError msg).
Proof.
  intros Hdata. unfold main, validate, build_request.
  destruct data; try discriminate Hdata; clear Hdata;
    do 8 run_step; (split; [reflexivity | eexists; eauto]).
Qed.
End inch_runs.

(** ** [router/inch.py]: further properties *)
Section inch_properties.
Import Inch.
Implicit Types (requests_get : pystr → pyval → pyval → result response).
Implicit Types (authorization : pystr) (sys : host) (output : option pystr).
Implicit Types (data body tx payload src dst amount from slippage : pyval).
Implicit Types (d : gmap pystr pyval).

(** X1. Falsy data of any type ([None], [False], 0, 0.0, the empty str,
    list or dict) is rejected by line 20 with the message of line 21,
    before any key is looked at and with no event. *)
Theorem inch_falsy_data_rejected requests_get authorization sys output data :
  truthy data = false →
  main requests_get authorization sys output data =
    ([], Raise (ValueError "Invalid json data")).
Proof.
  intros H. apply main_validate_raises. unfold validate. rewrite H.
  reflexivity.
Qed.

Lemma inch_falsy_data_rejected_witness :
  truthy (PList []) = false ∧
  main network_down (str "Bearer key") Inch.host_ok None (PList []) =
    ([], Raise (ValueError "Invalid json data")).
Proof.
  split; [reflexivity|].
  apply (inch_falsy_data_rejected network_down (str "Bearer key") Inch.host_ok None (PList [])).
  reflexivity.
Defined.

(** X2. On a dict that is not empty, the error names the first key that
    is missing in the order src, dst, amount, from, slippage, whatever
    else is missing. *)
Theorem inch_first_missing_field_named requests_get authorization sys output d
    (k : string) :
  0 < size d → first_missing d = Some k →
  main requests_get authorization sys output (PDict d) =
    ([], Raise (ValueError ("Invalid json data, " +:+ k +:+ " is required"))).
Proof.
  intros Hsize Hk. apply main_validate_raises. rewrite validate_dict.
  destruct (size d =? 0)%nat eqn:Hz; [apply Nat.eqb_eq in Hz; lia|].
  unfold first_missing in Hk. cbn [List.find] in Hk.
  destruct (d !! str "src"); [|injection Hk as <-; reflexivity].
  destruct (d !! str "dst"); [|injection Hk as <-; reflexivity].
  destruct (d !! str "amount"); [|injection Hk as <-; reflexivity].
  destruct (d !! str "from"); [|injection Hk as <-; reflexivity].
  destruct (d !! str "slippage"); [|injection Hk as <-; reflexivity].
  discriminate Hk.
Qed.

Lemma inch_first_missing_field_named_witness :
  0 < size (delete (str "dst") sample_partial) ∧
  first_missing (delete (str "dst") sample_partial) = Some "dst"%string ∧
  main network_down (str "Bearer key") Inch.host_ok None
       (PDict (delete (str "dst") sample_partial)) =
    ([], Raise (ValueError "Invalid json data, dst is required")).
Proof.
  assert (0 < size (delete (str "dst") sample_partial)) as Hsize
    by (vm_compute; lia).
  assert (first_missing (delete (str "dst") sample_partial) = Some "dst"%string)
    as Hk by (vm_compute; reflexivity).
  repeat apply conj; [exact Hsize | exact Hk |].
  exact (inch_first_missing_field_named network_down (str "Bearer key") Inch.host_ok None
           (delete (str "dst") sample_partial) "dst" Hsize Hk).
Defined.

(** X3. Parsed data that is not a dict (a number, a bool, a str, a list,
    null) never reaches the network: the run has no event and ends in
    [ValueError] or [TypeError]. *)
Theorem inch_non_dict_rejected requests_get authorization sys output data :
  is_dict data = false →
  fst (main requests_get authorization sys output data) = [] ∧
  ∃ msg,
    snd (main requests_get authorization sys output data) = Raise (ValueError msg) ∨
    snd (main requests_get authorization sys output data) = Raise (TypeError msg).
Proof. apply main_non_dict. Qed.

Lemma inch_non_dict_rejected_witness :
  is_dict (PStr (str "src dst amount from slippage")) = false ∧
  fst (main network_down (str "Bearer key") Inch.host_ok None
            (PStr (str "src dst amount from slippage"))) = [] ∧
  ∃ msg,
    snd (main network_down (str "Bearer key") Inch.host_ok None
              (PStr (str "src dst amount from slippage"))) = Raise (ValueError msg) ∨
    snd (main network_down (str "Bearer key") Inch.host_ok None
              (PStr (str "src dst amount from slippage"))) = Raise (TypeError msg).
Proof.
  split; [reflexivity|].
  apply (inch_non_dict_rejected network_down (str "Bearer key") Inch.host_ok None
           (PStr (str "src dst amount from slippage"))).
  reflexivity.
Defined.

(** X4. A run that goes through: for a dict with the five keys, a response
    whose body parses and holds [tx.data], an output file (when one is
    named) that can be opened and written, and a payload that can be
    printed, the events are the one GET to [apiUrl] with the five values and
    [disableEstimate], then the opening and the dump of the whole body when
    an output file is named, then the print of [tx.data]; the run ends
    without an exception. *)
Theorem inch_run_success requests_get authorization sys output d
    src dst amount from slippage (r : response) body tx payload :
  d !! str "src" = Some src → d !! str "dst" = Some dst →
  d !! str "amount" = Some amount → d !! str "from" = Some from →
  d !! str "slippage" = Some slippage →
  requests_get apiUrl (headers_of authorization)
               (params_of src dst amount from slippage) = Ok r →
  json r = Ok body →
  subscript body (str "tx") = Ok tx →
  subscript tx (str "data") = Ok payload →
  (∀ path, output_file output = Some path →
           sys_open sys path = Ok () ∧ sys_dump sys path body = Ok ()) →
  sys_print sys payload = Ok () →
  main requests_get authorization sys output (PDict d) =
    (NetGet apiUrl (headers_of authorization)
            (params_of src dst amount from slippage)
       :: dump_events output body ++ [Print payload],
     Ok ()).
Proof.
  intros Hsrc Hdst Hamount Hfrom Hslippage Hget Hjson Htx Hpayload Hfile Hprint.
  rewrite (main_complete_cases requests_get authorization sys output d
             _ _ _ _ _ Hsrc Hdst Hamount Hfrom Hslippage).
  cbv zeta. rewrite Hget, Hjson, Htx, Hpayload, Hprint. unfold dump_events.
  destruct (output_file output) as [path|]; [|reflexivity].
  destruct (Hfile path eq_refl) as [-> ->]. reflexivity.
Qed.

Lemma inch_run_success_witness :
  main (network_answers payload_body) (str "Bearer key") (host_utf8 (str "missing/out.json"))
       (Some (str "out.json")) (PDict sample_complete) =
    ([NetGet apiUrl (headers_of (str "Bearer key")) sample_params;
      FileOpen (str "out.json"); FileDump payload_body;
      Print (PStr (str "0x07ed"))],
     Ok ()).
Proof.
  apply (inch_run_success (network_answers payload_body) (str "Bearer key")
           (host_utf8 (str "missing/out.json")) (Some (str "out.json")) sample_complete
           (PStr (str "0xaf88")) (PStr (str "0x82af")) (PStr (str "1000000"))
           (PStr (str "0x1111")) (PInt 1)
           (Response (Ok payload_body)) payload_body
           (PDict {[ str "data" := PStr (str "0x07ed") ]})
           (PStr (str "0x07ed")));
    try (vm_compute; reflexivity).
  intros path [= <-]. split; vm_compute; reflexivity.
Defined.

(** X5. Only such runs end without an exception: if the script ends
    normally, then the data was a dict with the five keys, the single GET
    returned a response whose body parsed and held [tx.data], and the
    events are that GET, the dump when an output file is named, and the
    print of [tx.data]. *)
Theorem inch_success_inverse requests_get authorization sys output data
    (t : list event) :
  main requests_get authorization sys output data = (t, Ok ()) →
  ∃ d src dst amount from slippage (r : response) body tx payload,
    data = PDict d ∧
    d !! str "src" = Some src ∧ d !! str "dst" = Some dst ∧
    d !! str "amount" = Some amount ∧ d !! str "from" = Some from ∧
    d !! str "slippage" = Some slippage ∧
    requests_get apiUrl (headers_of authorization)
                 (params_of src dst amount from slippage) = Ok r ∧
    json r = Ok body ∧
    subscript body (str "tx") = Ok tx ∧
    subscript tx (str "data") = Ok payload ∧
    t = NetGet apiUrl (headers_of authorization)
               (params_of src dst amount from slippage)
          :: dump_events output body ++ [Print payload].
Proof.
  intros Hrun.
  destruct (is_dict data) eqn:Hdict.
  - destruct data as [| | | | | |d]; try discriminate Hdict.
    destruct (main_dict_cases requests_get authorization sys output d)
      as [[msg Hmsg]|(src & dst & amount & from & slippage &
                      Hsrc & Hdst & Hamount & Hfrom & Hslippage)].
    { rewrite Hmsg in Hrun. discriminate Hrun. }
    rewrite (main_complete_cases requests_get authorization sys output d
               _ _ _ _ _ Hsrc Hdst Hamount Hfrom Hslippage) in Hrun.
    cbv zeta in Hrun. unfold dump_events.
    destruct (requests_get _ _ _) as [r|] eqn:Hget; [|discriminate Hrun].
    destruct (json r) as [body|] eqn:Hjson;
      [|destruct (output_file output) as [path|];
        [destruct (sys_open sys path) as [[]|]|]; discriminate Hrun].
    destruct (subscript body _) as [tx|] eqn:Htx;
      [|destruct (output_file output) as [path|];
        [destruct (sys_open sys path) as [[]|];
         [destruct (sys_dump sys path body) as [[]|]|]|]; discriminate Hrun].
    destruct (subscript tx _) as [payload|] eqn:Hpayload;
      [|destruct (output_file output) as [path|];
        [destruct (sys_open sys path) as [[]|];
         [destruct (sys_dump sys path body) as [[]|]|]|]; discriminate Hrun].
    exists d, src, dst, amount, from, slippage, r, body, tx, payload.
    repeat apply conj; auto.
    destruct (output_file output) as [path|];
      [destruct (sys_open sys path) as [[]|];
       [destruct (sys_dump sys path body) as [[]|]|]|];
      try discriminate Hrun;
      (destruct (sys_print sys payload) as [[]|]; [|discriminate Hrun]);
      injection Hrun as <-; reflexivity.
  - destruct (main_non_dict requests_get authorization sys output data Hdict)
      as [_ [msg [H|H]]]; rewrite Hrun in H; discriminate H.
Qed.

Lemma inch_success_inverse_witness :
  ∃ d src dst amount from slippage (r : response) body tx payload,
    PDict sample_complete = PDict d ∧
    d !! str "src" = Some src ∧ d !! str "dst" = Some dst ∧
    d !! str "amount" = Some amount ∧ d !! str "from" = Some from ∧
    d !! str "slippage" = Some slippage ∧
    network_answers payload_body apiUrl (headers_of (str "Bearer key"))
                 (params_of src dst amount from slippage) = Ok r ∧
    json r = Ok body ∧
    subscript body (str "tx") = Ok tx ∧
    subscript tx (str "data") = Ok payload ∧
    [NetGet apiUrl (headers_of (str "Bearer key")) sample_params;
     Print (PStr (str "0x07ed"))] =
      NetGet apiUrl (headers_of (str "Bearer key"))
             (params_of src dst amount from slippage)
        :: dump_events None body ++ [Print payload].
Proof.
  apply (inch_success_inverse (network_answers payload_body) (str "Bearer key") Inch.host_ok
           None (PDict sample_complete)).
  vm_compute. reflexivity.
Defined.

(** X6. The run depends on a dict only through the five keys: two dicts
    that are not empty and agree on src, dst, amount, from and slippage
    give the same events and the same end, so any other field of the
    request is neither checked nor sent. *)
Theorem inch_only_required_fields_matter requests_get authorization sys output
    d (d' : gmap pystr pyval) :
  0 < size d → 0 < size d' →
  (∀ k, k ∈ required_fields → d !! k = d' !! k) →
  main requests_get authorization sys output (PDict d) =
  main requests_get authorization sys output (PDict d').
Proof.
  intros Hd Hd' Hagree.
  assert (d !! str "src" = d' !! str "src") as Hsrc
    by (apply Hagree; repeat constructor).
  assert (d !! str "dst" = d' !! str "dst") as Hdst
    by (apply Hagree; repeat constructor).
  assert (d !! str "amount" = d' !! str "amount") as Hamount
    by (apply Hagree; repeat constructor).
  assert (d !! str "from" = d' !! str "from") as Hfrom
    by (apply Hagree; repeat constructor).
  assert (d !! str "slippage" = d' !! str "slippage") as Hslippage
    by (apply Hagree; repeat constructor).
  unfold main, build_request. rewrite !validate_dict. cbn [subscript].
  destruct (size d =? 0)%nat eqn:Hz; [apply Nat.eqb_eq in Hz; lia|].
  destruct (size d' =? 0)%nat eqn:Hz'; [apply Nat.eqb_eq in Hz'; lia|].
  rewrite Hsrc, Hdst, Hamount, Hfrom, Hslippage. reflexivity.
Qed.

Lemma inch_only_required_fields_matter_witness :
  0 < size sample_complete ∧
  0 < size (<[str "receiver" := PStr (str "0x2222")]> sample_complete) ∧
  main (network_answers payload_body) (str "Bearer key") Inch.host_ok None
       (PDict sample_complete) =
  main (network_answers payload_body) (str "Bearer key") Inch.host_ok None
       (PDict (<[str "receiver" := PStr (str "0x2222")]> sample_complete)).
Proof.
  assert (0 < size sample_complete) as H1 by (vm_compute; lia).
  assert (0 < size (<[str "receiver" := PStr (str "0x2222")]> sample_complete))
    as H2 by (vm_compute; lia).
  repeat apply conj; [exact H1 | exact H2 |].
  apply (inch_only_required_fields_matter (network_answers payload_body)
           (str "Bearer key") Inch.host_ok None sample_complete
           (<[str "receiver" := PStr (str "0x2222")]> sample_complete) H1 H2).
  intros k Hk. unfold required_fields in Hk.
  repeat (apply elem_of_cons in Hk as [->|Hk]);
    [vm_compute; reflexivity .. | inversion Hk].
Defined.

(** X7. When the body of the response does not parse, nothing is dumped or
    printed. Without a named output file the exception of
    [response.json()] ends the script right after the GET. With one, the
    file is opened first: if that fails, the exception of [open] ends the
    script and [response.json()] is never evaluated; if it succeeds, the
    file has been opened for writing when the exception of
    [response.json()] ends the script. *)
Theorem inch_unparsable_body requests_get authorization sys output d
    src dst amount from slippage (r : response) (x : exn) :
  d !! str "src" = Some src → d !! str "dst" = Some dst →
  d !! str "amount" = Some amount → d !! str "from" = Some from →
  d !! str "slippage" = Some slippage →
  requests_get apiUrl (headers_of authorization)
               (params_of src dst amount from slippage) = Ok r →
  json r = Raise x →
  main requests_get authorization sys output (PDict d) =
    let req := NetGet apiUrl (headers_of authorization)
                      (params_of src dst amount from slippage) in
    match output_file output with
    | None => ([req], Raise x)
    | Some path =>
        match sys_open sys path with
        | Ok _ => ([req; FileOpen path], Raise x)
        | Raise y => ([req], Raise y)
        end
    end.
Proof.
  intros Hsrc Hdst Hamount Hfrom Hslippage Hget Hjson.
  rewrite (main_complete_cases requests_get authorization sys output d
             _ _ _ _ _ Hsrc Hdst Hamount Hfrom Hslippage).
  cbv zeta. rewrite Hget, Hjson.
  destruct (output_file output) as [path|]; [|reflexivity].
  destruct (sys_open sys path) as [[]|]; reflexivity.
Qed.

Lemma inch_unparsable_body_witness :
  main (λ _ _ _, Ok (Response (Raise JSONDecodeError))) (str "Bearer key")
       (host_utf8 (str "missing/out.json")) (Some (str "out.json")) (PDict sample_complete) =
    ([NetGet apiUrl (headers_of (str "Bearer key")) sample_params;
      FileOpen (str "out.json")],
     Raise JSONDecodeError) ∧
  main (λ _ _ _, Ok (Response (Raise JSONDecodeError))) (str "Bearer key")
       (host_utf8 (str "missing/out.json")) (Some (str "missing/out.json")) (PDict sample_complete) =
    ([NetGet apiUrl (headers_of (str "Bearer key")) sample_params],
     Raise (OSError "FileNotFoundError")).
Proof.
  split.
  - apply (inch_unparsable_body (λ _ _ _, Ok (Response (Raise JSONDecodeError)))
             (str "Bearer key") (host_utf8 (str "missing/out.json")) (Some (str "out.json"))
             sample_complete
             (PStr (str "0xaf88")) (PStr (str "0x82af")) (PStr (str "1000000"))
             (PStr (str "0x1111")) (PInt 1)
             (Response (Raise JSONDecodeError)) JSONDecodeError);
      vm_compute; reflexivity.
  - apply (inch_unparsable_body (λ _ _ _, Ok (Response (Raise JSONDecodeError)))
             (str "Bearer key") (host_utf8 (str "missing/out.json")) (Some (str "missing/out.json"))
             sample_complete
             (PStr (str "0xaf88")) (PStr (str "0x82af")) (PStr (str "1000000"))
             (PStr (str "0x1111")) (PInt 1)
             (Response (Raise JSONDecodeError)) JSONDecodeError);
      vm_compute; reflexivity.
Defined.

(** X8. When the body parses but [body["tx"]["data"]] raises (no [tx], a
    [tx] that is not a dict, no [data]), nothing is printed. Without a
    named output file that exception ends the script after the GET. With
    one, the script ends in the exception of [open] when the file cannot be
    opened, in the exception of [json.dump] when the body cannot be
    written, and otherwise in that of the subscript, after the whole body
    was written to the file. *)
Theorem inch_body_without_payload requests_get authorization sys output d
    src dst amount from slippage (r : response) body (x : exn) :
  d !! str "src" = Some src → d !! str "dst" = Some dst →
  d !! str "amount" = Some amount → d !! str "from" = Some from →
  d !! str "slippage" = Some slippage →
  requests_get apiUrl (headers_of authorization)
               (params_of src dst amount from slippage) = Ok r →
  json r = Ok body →
  (subscript body (str "tx") ≫= λ tx, subscript tx (str "data")) = Raise x →
  main requests_get authorization sys output (PDict d) =
    let req := NetGet apiUrl (headers_of authorization)
                      (params_of src dst amount from slippage) in
    match output_file output with
    | None => ([req], Raise x)
    | Some path =>
        match sys_open sys path with
        | Raise y => ([req], Raise y)
        | Ok _ =>
            match sys_dump sys path body with
            | Raise y => ([req; FileOpen path], Raise y)
            | Ok _ => ([req; FileOpen path; FileDump body], Raise x)
            end
        end
    end.
Proof.
  intros Hsrc Hdst Hamount Hfrom Hslippage Hget Hjson Hx.
  rewrite (main_complete_cases requests_get authorization sys output d
             _ _ _ _ _ Hsrc Hdst Hamount Hfrom Hslippage).
  cbv zeta. rewrite Hget, Hjson.
  assert (∀ t : list event,
            match subscript body (str "tx") with
            | Raise x0 => (t, Raise x0)
            | Ok tx =>
                match subscript tx (str "data") with
                | Raise x0 => (t, Raise x0)
                | Ok payload =>
                    match sys_print sys payload with
                    | Raise x0 => (t, Raise x0)
                    | Ok _ => (t ++ [Print payload], Ok ())
                    end
                end
            end = (t, @Raise () x)) as Hfinish.
  { intros t. destruct (subscript body _) as [tx|y];
      cbn [mbind result_bind] in Hx.
    - rewrite Hx. reflexivity.
    - injection Hx as ->. reflexivity. }
  destruct (output_file output) as [path|].
  - destruct (sys_open sys path) as [[]|]; [|reflexivity].
    destruct (sys_dump sys path body) as [[]|]; [|reflexivity].
    apply (Hfinish (_ :: _)).
  - apply (Hfinish [_]).
Qed.

Lemma inch_body_without_payload_witness :
  main (network_answers error_body) (str "Bearer key") (host_utf8 (str "missing/out.json"))
       (Some (str "out.json")) (PDict sample_complete) =
    ([NetGet apiUrl (headers_of (str "Bearer key")) sample_params;
      FileOpen (str "out.json"); FileDump error_body],
     Raise (KeyError (str "tx"))) ∧
  main (network_answers error_body) (str "Bearer key") (host_utf8 (str "missing/out.json"))
       (Some (str "missing/out.json")) (PDict sample_complete) =
    ([NetGet apiUrl (headers_of (str "Bearer key")) sample_params],
     Raise (OSError "FileNotFoundError")).
Proof.
  split.
  - apply (inch_body_without_payload (network_answers error_body)
             (str "Bearer key") (host_utf8 (str "missing/out.json")) (Some (str "out.json"))
             sample_complete
             (PStr (str "0xaf88")) (PStr (str "0x82af")) (PStr (str "1000000"))
             (PStr (str "0x1111")) (PInt 1)
             (Response (Ok error_body)) error_body (KeyError (str "tx")));
      vm_compute; reflexivity.
  - apply (inch_body_without_payload (network_answers error_body)
             (str "Bearer key") (host_utf8 (str "missing/out.json")) (Some (str "missing/out.json"))
             sample_complete
             (PStr (str "0xaf88")) (PStr (str "0x82af")) (PStr (str "1000000"))
             (PStr (str "0x1111")) (PInt 1)
             (Response (Ok error_body)) error_body (KeyError (str "tx")));
      vm_compute; reflexivity.
Defined.

(** X9. The order of the effects in every run, whatever the data and the
    network: a run without events ends in an exception; otherwise the
    first event is the GET to [apiUrl] with the Authorization header, and
    what follows is at most the opening of the output file, the dump and
    the print, in this order. Without a named output file no file is
    touched. The run ends normally exactly when the print is its last
    event. *)
Theorem inch_run_shape requests_get authorization sys output data :
  match main requests_get authorization sys output data with
  | ([], r) => ∃ x, r = Raise x
  | (ev :: rest, r) =>
      (∃ params, ev = NetGet apiUrl (headers_of authorization) params) ∧
      after_get rest = true ∧
      (if output_file output is None
       then existsb is_file_event rest = false else True) ∧
      match r with
      | Ok _ => ∃ v, last rest = Some (Print v)
      | Raise _ => existsb is_print rest = false
      end
  end.
Proof.
  destruct (is_dict data) eqn:Hdict.
  - destruct data as [| | | | | |d]; try discriminate Hdict.
    destruct (main_dict_cases requests_get authorization sys output d)
      as [[msg Hmsg]|(src & dst & amount & from & slippage &
                      Hsrc & Hdst & Hamount & Hfrom & Hslippage)].
    { rewrite Hmsg. eauto. }
    rewrite (main_complete_cases requests_get authorization sys output d
               _ _ _ _ _ Hsrc Hdst Hamount Hfrom Hslippage).
    cbv zeta.
    destruct (requests_get _ _ _) as [r|];
      [destruct (json r) as [body|];
       [destruct (subscript body _) as [tx|];
        [destruct (subscript tx _) as [payload|];
         [destruct (sys_print sys payload) as [[]|]|]|]|]|];
      (destruct (output_file output) as [path|];
       [destruct (sys_open sys path) as [[]|];
        [try destruct (sys_dump sys path body) as [[]|]|]|]);
      cbn; repeat apply conj; eauto.
  - destruct (main_non_dict requests_get authorization sys output data Hdict)
      as [Hev [msg Hend]].
    destruct (main requests_get authorization sys output data) as [t r].
    cbn in Hev, Hend. subst t. destruct Hend as [->| ->]; eauto.
Qed.
End inch_properties.

(** ** [error_hashes.py]: the loop as a whole *)
Section loop_facts.
Import Keccak.

(** The loop over a concatenation. *)
Lemma for_loop_app (S1 S2 : list pystr) (e : env) :
  for_loop (S1 ++ S2) e =
    match for_loop S1 e with
    | (e1, Ok _) => for_loop S2 e1
    | (e1, Raise x) => (e1, Raise x)
    end.
Proof.
  revert e. induction S1 as [|d S1 IH]; intros e; [reflexivity|].
  cbn [for_loop app]. destruct (loop_body d e) as [e1 [[]|x]]; [apply IH|].
  reflexivity.
Qed.

(** What the loop prints and how it ends do not depend on the environment
    it starts from. *)
Lemma for_loop_output (S : list pystr) :
  ∃ out r, length out ≤ length S ∧
    ∀ e, stdout (fst (for_loop S e)) = stdout e ++ out ∧
         snd (for_loop S e) = r.
Proof.
  induction S as [|d S (out & r & Hlen & IH)].
  - exists [], (Ok ()). split; [reflexivity|]. intros e. cbn.
    rewrite app_nil_r. auto.
  - destruct (encode_utf8 d) as [b|x] eqn:Hd.
    + exists (entry_line d b :: out), r. split; [cbn; lia|]. intros e.
      cbn [for_loop]. rewrite (loop_body_encoded _ _ e Hd).
      destruct (IH {| signature := Some d;
                      hash_bytes := Some (keccak_256 b);
                      selector := Some (hex (reference_selector b));
                      stdout := stdout e ++ [entry_line d b] |}) as [Hout Hr].
      unfold entry_line in *. rewrite Hout, Hr. cbn [stdout].
      rewrite <- app_assoc. auto.
    + exists [], (Raise x). split; [cbn; lia|]. intros e.
      cbn [for_loop]. rewrite (loop_body_raises _ _ e Hd). cbn.
      rewrite app_nil_r. auto.
Qed.

(** A text that is not encodable: the encoder raises on its first code
    point that is not a scalar value. *)
Lemma encode_utf8_not_encodable (d : pystr) :
  encodable d = false →
  ∃ c, encode_utf8 d = Raise (UnicodeEncodeError c) ∧
       c ∈ d ∧ scalar_value c = false.
Proof.
  induction d as [|c d IH]; [discriminate|]. cbn [encodable forallb].
  destruct (scalar_value c) eqn:Hc; cbn [andb].
  - intros Hd. destruct (IH Hd) as (c' & Henc & Hin & Hc').
    exists c'. repeat apply conj; [|right; exact Hin|exact Hc'].
    cbn [encode_utf8]. destruct (utf8_char_scalar c Hc) as [b ->].
    cbn. rewrite Henc. reflexivity.
  - intros _. exists c. repeat apply conj; [|left|exact Hc].
    cbn [encode_utf8]. rewrite (utf8_char_raises c Hc). reflexivity.
Qed.

Lemma derive_selector_ok_length (d : pystr) (sel : list byte) :
  derive_selector d = Ok sel → length sel = 4.
Proof.
  destruct (encode_utf8 d) as [b|x] eqn:Hd.
  - rewrite (derive_selector_encoded _ _ Hd). intros [= <-].
    apply length_reference_selector.
  - rewrite (derive_selector_raises _ _ Hd). discriminate.
Qed.

(** Different byte strings have different digits. *)
Lemma hex_inj (bs1 bs2 : list byte) : hex bs1 = hex bs2 → bs1 = bs2.
Proof.
  intros H. apply (f_equal fromhex) in H. rewrite !fromhex_hex in H.
  congruence.
Qed.

Lemma loop_body_selector (d : pystr) (sel : list byte) (e : env) :
  derive_selector d = Ok sel →
  snd (loop_body d e) = Ok () ∧
  selector (fst (loop_body d e)) = Some (hex sel) ∧
  stdout (fst (loop_body d e)) = stdout e ++ [format_line d (hex sel)].
Proof.
  destruct (encode_utf8 d) as [b|x] eqn:Hd.
  - rewrite (derive_selector_encoded _ _ Hd), (loop_body_encoded _ _ e Hd).
    intros [= <-]. auto.
  - rewrite (derive_selector_raises _ _ Hd). discriminate.
Qed.

Lemma ascii_text_encode (d : pystr) :
  ascii_text d = true → encode_utf8 d = Ok (byte_of_N <$> d).
Proof.
  intros H. apply encode_utf8_ascii.
  induction d as [|c d IH]; constructor;
    cbn in H; apply andb_prop in H as [Hc Hd]; [apply N.ltb_lt, Hc | auto].
Qed.

Lemma ascii_text_app (s1 s2 : pystr) :
  ascii_text (s1 ++ s2) = ascii_text s1 && ascii_text s2.
Proof. apply forallb_app. Qed.

Lemma hex_ascii (bs : list byte) : ascii_text (hex bs) = true.
Proof.
  pose proof (hex_lower bs) as H. unfold ascii_text.
  induction (hex bs) as [|c l IH]; [reflexivity|].
  cbn in *. apply andb_prop in H as [Hc Hl]. rewrite (IH Hl), andb_true_r.
  unfold lower_hex_digit in Hc. apply N.ltb_lt.
  apply orb_prop in Hc as [Hc|Hc]; apply andb_prop in Hc as [_ Hc];
    apply N.leb_le in Hc; lia.
Qed.

Lemma entry_line_ascii (d : pystr) (b : list byte) :
  ascii_text d = true → ascii_text (entry_line d b) = true.
Proof.
  intros Hd. unfold entry_line, format_line.
  rewrite !ascii_text_app, Hd, hex_ascii. reflexivity.
Qed.
End loop_facts.

(** ** [error_hashes.py]: further properties *)

(** X10. The loop only appends to the output: started in any
    environment, it keeps the lines printed before, and the lines it adds
    and the way it ends are those of the run from a fresh environment; it
    adds at most one line per declaration. *)
Theorem for_loop_appends (S : list pystr) (e : env) :
  stdout (fst (for_loop S e)) = stdout e ++ stdout (fst (report_all S)) ∧
  snd (for_loop S e) = snd (report_all S) ∧
  length (stdout (fst (report_all S))) ≤ length S.
Proof.
  destruct (for_loop_output S) as (out & r & Hlen & H).
  destruct (H e) as [He Hr]. destruct (H fresh) as [Hf Hrf].
  unfold report_all. cbn [stdout fresh app] in Hf.
  rewrite He, Hr, Hf, Hrf. auto.
Qed.

(** X11. The report of a concatenation: when the report of the first
    part ends normally, the lines are those of the first part followed by
    those of the second, and the end is that of the second; when the first
    part raises, the second part changes nothing. *)
Theorem report_all_app (S1 S2 : list pystr) :
  match snd (report_all S1) with
  | Ok _ =>
      stdout (fst (report_all (S1 ++ S2))) =
        stdout (fst (report_all S1)) ++ stdout (fst (report_all S2)) ∧
      snd (report_all (S1 ++ S2)) = snd (report_all S2)
  | Raise _ => report_all (S1 ++ S2) = report_all S1
  end.
Proof.
  unfold report_all. rewrite for_loop_app.
  destruct (for_loop S1 fresh) as [e1 [[]|x]]; cbn [fst snd]; [|reflexivity].
  destruct (for_loop_output S2) as (out & r & _ & H).
  destruct (H e1) as [He Hr]. destruct (H fresh) as [Hf Hrf].
  cbn [stdout fresh app] in Hf. rewrite He, Hr, Hf, Hrf. auto.
Qed.

(** X12. The loop stops at the first text that cannot be encoded: the
    lines of the declarations before it are printed, the script ends in
    [UnicodeEncodeError] for a code point of that text that is not a scalar
    value, [signature] is left bound to that text, and what comes after it
    in the list is never looked at. *)
Theorem report_all_stops_at_unencodable (S1 S2 : list pystr) (d : pystr) :
  forallb encodable S1 = true → encodable d = false →
  ∃ e c, report_all (S1 ++ d :: S2) = (e, Raise (UnicodeEncodeError c)) ∧
         c ∈ d ∧ scalar_value c = false ∧
         Forall2 reports S1 (stdout e) ∧
         signature e = Some d.
Proof.
  intros HS1 Hd.
  destruct (encodable_all S1 HS1) as [bs Hbs].
  destruct (report_all_encoded S1 bs Hbs) as [e1 [Hrun Hout]].
  destruct (encode_utf8_not_encodable d Hd) as (c & Henc & Hin & Hc).
  exists {| signature := Some d; hash_bytes := hash_bytes e1;
            selector := selector e1; stdout := stdout e1 |}, c.
  repeat apply conj; try assumption; try reflexivity.
  - unfold report_all in *. rewrite for_loop_app, Hrun.
    cbn [for_loop]. rewrite (loop_body_raises _ _ e1 Henc). reflexivity.
  - cbn [stdout]. rewrite Hout. apply entry_lines_report, Hbs.
Qed.

Lemma report_all_stops_at_unencodable_witness :
  forallb encodable [str "A()"] = true ∧ encodable [0xDC00%N] = false ∧
  ∃ e c, report_all ([str "A()"] ++ [0xDC00%N] :: [str "B()"]) =
           (e, Raise (UnicodeEncodeError c)) ∧
         c ∈ [0xDC00%N] ∧ scalar_value c = false ∧
         Forall2 reports [str "A()"] (stdout e) ∧
         signature e = Some [0xDC00%N].
Proof.
  split; [reflexivity|]. split; [reflexivity|].
  apply (report_all_stops_at_unencodable [str "A()"] [str "B()"] [0xDC00%N]);
    reflexivity.
Defined.

(** X13. After a report that ends normally, the variables of the script
    hold the values of the last declaration: [signature] the declaration,
    [hash_bytes] the 32 bytes of its hash, [selector] the 8 digits of the
    first four of them. *)
Theorem report_all_final_variables (S : list pystr) (d : pystr) (b : list byte) :
  forallb encodable S = true → encode_utf8 d = Ok b →
  ∃ e, report_all (S ++ [d]) = (e, Ok ()) ∧
       signature e = Some d ∧
       hash_bytes e = Some (Keccak.keccak_256 b) ∧
       length (Keccak.keccak_256 b) = 32 ∧
       selector e = Some (hex (take 4 (Keccak.keccak_256 b))) ∧
       length (hex (take 4 (Keccak.keccak_256 b))) = 8.
Proof.
  intros HS Hd.
  destruct (encodable_all S HS) as [bs Hbs].
  destruct (report_all_encoded S bs Hbs) as [e1 [Hrun Hout]].
  unfold report_all in *. rewrite for_loop_app, Hrun. cbn [for_loop].
  rewrite (loop_body_encoded _ _ e1 Hd), reference_selector_take.
  eexists. split; [reflexivity|]. cbn.
  repeat apply conj; try reflexivity.
  - apply length_keccak_256.
  - rewrite length_hex, length_take, length_keccak_256. reflexivity.
Qed.

Lemma report_all_final_variables_witness :
  forallb encodable [str "A()"] = true ∧
  encode_utf8 (str "B()") = Ok (Keccak.byte_of_N <$> str "B()") ∧
  ∃ e, report_all ([str "A()"] ++ [str "B()"]) = (e, Ok ()) ∧
       signature e = Some (str "B()") ∧
       hash_bytes e = Some (Keccak.keccak_256 (Keccak.byte_of_N <$> str "B()")) ∧
       length (Keccak.keccak_256 (Keccak.byte_of_N <$> str "B()")) = 32 ∧
       selector e =
         Some (hex (take 4 (Keccak.keccak_256 (Keccak.byte_of_N <$> str "B()")))) ∧
       length (hex (take 4 (Keccak.keccak_256 (Keccak.byte_of_N <$> str "B()")))) = 8.
Proof.
  split; [reflexivity|]. split; [reflexivity|].
  apply (report_all_final_variables [str "A()"] (str "B()")); reflexivity.
Defined.

(** X14. Two declarations are printed with the same selector text exactly
    when their selectors are the same four bytes: the hexadecimal form
    neither merges two selectors nor splits one. *)
Theorem printed_selector_faithful (d1 d2 : pystr) (s1 s2 : list byte)
    (e1 e2 : env) :
  derive_selector d1 = Ok s1 → derive_selector d2 = Ok s2 →
  selector (fst (loop_body d1 e1)) = selector (fst (loop_body d2 e2)) ↔ s1 = s2.
Proof.
  intros H1 H2.
  destruct (loop_body_selector d1 s1 e1 H1) as (_ & -> & _).
  destruct (loop_body_selector d2 s2 e2 H2) as (_ & -> & _).
  split.
  - intros [= H]. apply hex_inj, H.
  - intros ->. reflexivity.
Qed.

Lemma printed_selector_faithful_witness :
  derive_selector (str "ZeroShares()") = Ok [x98; x11; xe0; xc7] ∧
  derive_selector (str "ZeroAddress()") = Ok [xd9; x2e; x23; x3d] ∧
  (selector (fst (loop_body (str "ZeroShares()") fresh)) =
   selector (fst (loop_body (str "ZeroAddress()") fresh)) ↔
   [x98; x11; xe0; xc7] = [xd9; x2e; x23; x3d]).
Proof.
  assert (derive_selector (str "ZeroShares()") = Ok [x98; x11; xe0; xc7]) as H1
    by (vm_compute; reflexivity).
  assert (derive_selector (str "ZeroAddress()") = Ok [xd9; x2e; x23; x3d]) as H2
    by (vm_compute; reflexivity).
  repeat apply conj; [exact H1 | exact H2 | |];
    apply (printed_selector_faithful (str "ZeroShares()") (str "ZeroAddress()")
             [x98; x11; xe0; xc7] [xd9; x2e; x23; x3d] fresh fresh H1 H2).
Defined.

(** X15. A printed line can be read back: cutting the last 12 characters
    gives the declaration, and the last 8 characters are the digits of its
    selector, whatever characters the declaration itself contains. *)
Theorem report_line_read_back (d : pystr) (sel : list byte) (e : env) :
  derive_selector d = Ok sel →
  ∃ line, stdout (fst (loop_body d e)) = stdout e ++ [line] ∧
          length line = length d + 12 ∧
          line_declaration line = d ∧
          line_selector line = Some sel.
Proof.
  intros H. destruct (loop_body_selector d sel e H) as (_ & _ & Hout).
  pose proof (derive_selector_ok_length d sel H) as Hlen.
  assert (length (hex sel) = 8) as Hhex by (rewrite length_hex, Hlen; reflexivity).
  exists (format_line d (hex sel)). split; [exact Hout|].
  assert (length (format_line d (hex sel)) = length d + 12) as Hline.
  { unfold format_line. rewrite !length_app, Hhex. reflexivity. }
  repeat apply conj.
  - exact Hline.
  - unfold line_declaration. rewrite Hline. unfold format_line.
    apply take_app_length'. lia.
  - unfold line_selector. rewrite Hline. unfold format_line.
    rewrite app_assoc, drop_app_length'; [apply fromhex_hex|].
    rewrite length_app. cbn. lia.
Qed.

Lemma report_line_read_back_witness :
  derive_selector (str "f(): 0x12345678") = Ok [x8a; x70; x61; xdc] ∧
  ∃ line, stdout (fst (loop_body (str "f(): 0x12345678") fresh)) =
            stdout fresh ++ [line] ∧
          length line = length (str "f(): 0x12345678") + 12 ∧
          line_declaration line = str "f(): 0x12345678" ∧
          line_selector line = Some [x8a; x70; x61; xdc].
Proof.
  assert (derive_selector (str "f(): 0x12345678") = Ok [x8a; x70; x61; xdc])
    as H by (vm_compute; reflexivity).
  split; [exact H|].
  exact (report_line_read_back (str "f(): 0x12345678") [x8a; x70; x61; xdc]
           fresh H).
Defined.

(** X16. For declarations written in ASCII the script never raises: the
    message hashed for each is its character codes, one byte per
    character, and every printed line is ASCII again. *)
Theorem report_all_ascii (S : list pystr) :
  forallb ascii_text S = true →
  ∃ e, report_all S = (e, Ok ()) ∧
       length (stdout e) = length S ∧
       forallb ascii_text (stdout e) = true ∧
       Forall2 (λ d line,
                  line = format_line d
                           (hex (take 4 (Keccak.keccak_256 (Keccak.byte_of_N <$> d)))))
               S (stdout e).
Proof.
  intros HS.
  assert (Forall2 (λ d b, encode_utf8 d = Ok b) S
                  (map (λ d : pystr, Keccak.byte_of_N <$> d) S)) as Hbs.
  { induction S as [|d S IH]; [constructor|].
    cbn in HS. apply andb_prop in HS as [Hd HS].
    constructor; [apply ascii_text_encode, Hd | apply IH, HS]. }
  destruct (report_all_encoded S _ Hbs) as [e [Hrun Hout]].
  exists e. rewrite Hout. split; [exact Hrun|].
  clear Hrun Hout Hbs. induction S as [|d S IH]; [repeat constructor|].
  cbn in HS. apply andb_prop in HS as [Hd HS].
  destruct (IH HS) as (Hlen & Hascii & Hlines). cbn.
  repeat apply conj.
  - rewrite Hlen. reflexivity.
  - rewrite (entry_line_ascii _ _ Hd). exact Hascii.
  - constructor; [|exact Hlines].
    unfold entry_line. rewrite reference_selector_take. reflexivity.
Qed.

Lemma report_all_ascii_witness :
  forallb ascii_text [str "Transfer(address,uint256)"; str ""] = true ∧
  ∃ e, report_all [str "Transfer(address,uint256)"; str ""] = (e, Ok ()) ∧
       length (stdout e) = 2 ∧
       forallb ascii_text (stdout e) = true ∧
       Forall2 (λ d line,
                  line = format_line d
                           (hex (take 4 (Keccak.keccak_256 (Keccak.byte_of_N <$> d)))))
               [str "Transfer(address,uint256)"; str ""] (stdout e).
Proof.
  split; [reflexivity|].
  apply (report_all_ascii [str "Transfer(address,uint256)"; str ""]).
  reflexivity.
Defined.

(** ** The encoding of the text that is hashed *)
Section utf8_facts.
Local Open Scope N_scope.

Lemma reads_back_below_spec (n : N) :
  reads_back_below n = true → ∀ c, c < n → reads_back c = true.
Proof.
  unfold reads_back_below.
  assert (∀ n,
    fst (N.iter n (λ '(c, ok), (c + 1, ok && reads_back c)) (0, true)) = n ∧
    (snd (N.iter n (λ '(c, ok), (c + 1, ok && reads_back c)) (0, true)) = true →
     ∀ c, c < n → reads_back c = true)) as H.
  { clear n. intros n. induction n as [|n [IHc IH]] using N.peano_ind.
    - split; [reflexivity|]. intros _ c Hc. lia.
    - rewrite N.iter_succ.
      destruct (N.iter n _ _) as [c0 ok]. cbn [fst snd] in *. subst c0.
      split; [lia|]. intros Hok c Hc.
      apply andb_prop in Hok as [Hok Hn].
      destruct (N.eq_dec c n) as [->|Hne]; [exact Hn|].
      apply IH; [exact Hok | lia]. }
  apply H.
Qed.

(** Every code point that has an encoding reads back from it. *)
Lemma reads_back_all : reads_back_below 0x110000 = true.
Proof. vm_compute. reflexivity. Qed.

Lemma decode_utf8_char_app (b r : list byte) (c : N) :
  decode_utf8_char b = Some (c, []) → decode_utf8_char (b ++ r) = Some (c, r).
Proof.
  destruct b as [|b0 r0]; [discriminate|].
  cbn [app]. unfold decode_utf8_char.
  destruct (Byte.to_N b0 <? 0x80); [intros [= <- ->]; reflexivity|].
  destruct (Byte.to_N b0 <? 0xC0); [discriminate|].
  destruct (Byte.to_N b0 <? 0xE0).
  { destruct r0 as [|b1 r1]; [discriminate|]. intros [= <- ->]. reflexivity. }
  destruct (Byte.to_N b0 <? 0xF0).
  { destruct r0 as [|b1 [|b2 r2]]; try discriminate.
    intros [= <- ->]. reflexivity. }
  destruct r0 as [|b1 [|b2 [|b3 r3]]]; try discriminate.
  intros [= <- ->]. reflexivity.
Qed.

(** The encoding of a code point, followed by anything, reads back as
    that code point and leaves what followed. *)
Lemma utf8_char_read (c : N) (b r : list byte) :
  utf8_char c = Ok b → decode_utf8_char (b ++ r) = Some (c, r).
Proof.
  intros H. assert (c < 0x110000) as Hc.
  { destruct (scalar_value c) eqn:Hs.
    - apply scalar_value_true in Hs. lia.
    - rewrite (utf8_char_raises c Hs) in H. discriminate H. }
  pose proof (reads_back_below_spec _ reads_back_all c Hc) as Hrb.
  unfold reads_back in Hrb. rewrite H in Hrb.
  destruct (decode_utf8_char b) as [[c' [|]]|] eqn:Hdec; try discriminate.
  apply N.eqb_eq in Hrb. subst c'. apply decode_utf8_char_app, Hdec.
Qed.

Lemma encode_utf8_cons (c : N) (s : pystr) (bs : list byte) :
  encode_utf8 (c :: s) = Ok bs →
  ∃ b rest, utf8_char c = Ok b ∧ encode_utf8 s = Ok rest ∧ bs = b ++ rest.
Proof.
  cbn [encode_utf8]. destruct (utf8_char c) as [b|]; [|discriminate].
  cbn. destruct (encode_utf8 s) as [rest|]; [|discriminate].
  cbn. intros [= <-]. eauto.
Qed.
End utf8_facts.

(** X17. The message that is hashed determines the text: two texts with
    the same UTF-8 encoding are the same text, so two different
    declarations are never hashed from the same bytes. *)
Theorem encode_utf8_injective (d1 d2 : pystr) (b : list byte) :
  encode_utf8 d1 = Ok b → encode_utf8 d2 = Ok b → d1 = d2.
Proof.
  revert d2 b. induction d1 as [|c1 d1 IH]; intros [|c2 d2] b H1 H2.
  - reflexivity.
  - cbn in H1. injection H1 as <-.
    apply encode_utf8_cons in H2 as (b2 & rest & Hc & _ & Hb).
    pose proof (utf8_char_read c2 b2 rest Hc) as Hdec.
    rewrite <- Hb in Hdec. discriminate Hdec.
  - cbn in H2. injection H2 as <-.
    apply encode_utf8_cons in H1 as (b1 & rest & Hc & _ & Hb).
    pose proof (utf8_char_read c1 b1 rest Hc) as Hdec.
    rewrite <- Hb in Hdec. discriminate Hdec.
  - apply encode_utf8_cons in H1 as (b1 & rest1 & Hc1 & Hd1 & ->).
    apply encode_utf8_cons in H2 as (b2 & rest2 & Hc2 & Hd2 & Hb).
    pose proof (utf8_char_read c1 b1 rest1 Hc1) as Hdec1.
    pose proof (utf8_char_read c2 b2 rest2 Hc2) as Hdec2.
    rewrite Hb, Hdec2 in Hdec1. injection Hdec1 as -> ->.
    f_equal. apply (IH d2 rest1 Hd1 Hd2).
Qed.

Lemma encode_utf8_injective_witness :
  encode_utf8 [0x66; 0xE9; 0x20AC]%N = Ok [x66; xc3; xa9; xe2; x82; xac] ∧
  [0x66; 0xE9; 0x20AC]%N = [0x66; 0xE9; 0x20AC]%N.
Proof.
  split; [reflexivity|].
  apply (encode_utf8_injective [0x66; 0xE9; 0x20AC]%N [0x66; 0xE9; 0x20AC]%N
           [x66; xc3; xa9; xe2; x82; xac]); reflexivity.
Defined.

Section inch_network.
Import Inch.

Lemma required_lookup_cases (d : gmap pystr pyval) :
  (∃ src dst amount from slippage,
     d !! str "src" = Some src ∧ d !! str "dst" = Some dst ∧
     d !! str "amount" = Some amount ∧ d !! str "from" = Some from ∧
     d !! str "slippage" = Some slippage) ∨
  (∃ k, k ∈ required_fields ∧ d !! k = None).
Proof.
  destruct (d !! str "src") as [src|] eqn:Hsrc;
    [|right; exists (str "src"); split; [repeat constructor | exact Hsrc]].
  destruct (d !! str "dst") as [dst|] eqn:Hdst;
    [|right; exists (str "dst"); split; [repeat constructor | exact Hdst]].
  destruct (d !! str "amount") as [amount|] eqn:Hamount;
    [|right; exists (str "amount"); split; [repeat constructor | exact Hamount]].
  destruct (d !! str "from") as [from|] eqn:Hfrom;
    [|right; exists (str "from"); split; [repeat constructor | exact Hfrom]].
  destruct (d !! str "slippage") as [slippage|] eqn:Hslippage;
    [|right; exists (str "slippage"); split; [repeat constructor | exact Hslippage]].
  left. exists src, dst, amount, from, slippage. auto.
Qed.

(** A dict with the five keys makes the one GET. *)
Lemma gets_complete
    (requests_get : pystr → pyval → pyval → result response)
    (authorization : pystr) (sys : host) (output : option pystr)
    (d : gmap pystr pyval) (src dst amount from slippage : pyval) :
  d !! str "src" = Some src → d !! str "dst" = Some dst →
  d !! str "amount" = Some amount → d !! str "from" = Some from →
  d !! str "slippage" = Some slippage →
  gets (main requests_get authorization sys output (PDict d)) = 1.
Proof.
  intros Hsrc Hdst Hamount Hfrom Hslippage.
  rewrite (main_complete_cases requests_get authorization sys output d
             _ _ _ _ _ Hsrc Hdst Hamount Hfrom Hslippage).
  cbv zeta.
  destruct (requests_get _ _ _) as [r|];
    [destruct (json r) as [body|];
     [destruct (subscript body _) as [tx|];
      [destruct (subscript tx _) as [payload|];
       [destruct (sys_print sys payload) as [[]|]|]|]|]|];
    (destruct (output_file output) as [path|];
     [destruct (sys_open sys path) as [[]|];
      [try destruct (sys_dump sys path body) as [[]|]|]|]);
    reflexivity.
Qed.
End inch_network.

(** X18. The network is called exactly when the parsed data is a dict
    that has the five keys: then there is one GET, and in every other case
    there is none. *)
Theorem inch_network_called_iff
    (requests_get : pystr → Inch.pyval → Inch.pyval → result Inch.response)
    (authorization : pystr) (sys : Inch.host) (output : option pystr)
    (data : Inch.pyval) :
  (Inch.gets (Inch.main requests_get authorization sys output data) = 1 ↔
   ∃ d, data = Inch.PDict d ∧
        Forall (λ k, is_Some (d !! k)) Inch.required_fields) ∧
  (Inch.gets (Inch.main requests_get authorization sys output data) = 0 ∨
   Inch.gets (Inch.main requests_get authorization sys output data) = 1).
Proof.
  destruct (Inch.is_dict data) eqn:Hdict.
  - destruct data as [| | | | | |d]; try discriminate Hdict.
    destruct (required_lookup_cases d)
      as [(src & dst & amount & from & slippage &
           Hsrc & Hdst & Hamount & Hfrom & Hslippage)|(k & Hk & Hnone)].
    + rewrite (gets_complete requests_get authorization sys output d _ _ _ _ _
                 Hsrc Hdst Hamount Hfrom Hslippage).
      split; [|right; reflexivity]. split; [|reflexivity].
      intros _. exists d. split; [reflexivity|].
      unfold Inch.required_fields. repeat constructor; eauto.
    + destruct (validate_missing d k Hk Hnone) as [msg Hmsg].
      rewrite (main_validate_raises requests_get authorization sys output _ _ Hmsg).
      split; [|left; reflexivity]. split; [discriminate|].
      intros (d' & [= <-] & Hall). exfalso.
      rewrite Forall_forall in Hall. destruct (Hall k Hk) as [v Hv].
      congruence.
  - destruct (main_non_dict requests_get authorization sys output data Hdict)
      as [Hev _].
    unfold Inch.gets. rewrite Hev.
    split; [|left; reflexivity]. split; [discriminate|].
    intros (d & -> & _). discriminate Hdict.
Qed.

Lemma inch_network_called_iff_witness :
  Inch.gets (Inch.main Inch.network_down (str "Bearer key") Inch.host_ok None
                       (Inch.PDict Inch.sample_complete)) = 1.
Proof.
  apply (proj1 (inch_network_called_iff Inch.network_down (str "Bearer key") Inch.host_ok
                  None (Inch.PDict Inch.sample_complete))).
  exists Inch.sample_complete. split; [reflexivity|].
  unfold Inch.required_fields. repeat constructor; vm_compute; eauto.
Defined.
